(** * PetSafety/add_files_to_xcode.py: a shallow embedding

    The script edits an Xcode project manifest (project.pbxproj) as plain
    text: it looks groups up with regular expressions, draws identifiers
    from [uuid.uuid4()] and splices formatted entries into the text.

    Layout of this development:
    - [Text]     Python [str] values and slices;
    - [Re]       the fragment of Python's [re] the script uses, as a
                 backtracking matcher;
    - [Uuid]     [uuid.uuid4().hex[:24].upper()];
    - [Py]       the effects of the script: one file system, standard
                 output, the entropy source, exceptions;
    - [Script]   the three functions of the script and [main];
    - then the lemmas and theorems about them. *)

From Stdlib Require Import ZArith Lia Ascii String DecimalString.
From stdpp Require Import base list strings.

Local Open Scope nat_scope.

(* ------------------------------------------------------------------ *)
(** ** Text *)

Module Text.

(** A Python [str] is a sequence of characters; the script only ever
    compares characters with the ASCII characters of its patterns and
    copies them, so a character is modelled as an [ascii]; the few
    non-ASCII characters of the script's own messages stand as their
    UTF-8 bytes (no length or index is ever taken of a message). *)
Definition text := list ascii.

(** A literal of the source. *)
Definition T (s : string) : text := list_ascii_of_string s.

(** [s[i:j]] for [0 <= i], [0 <= j]. *)
Definition slice (i j : nat) (s : text) : text := take (j - i) (drop i s).

(** [s[:p] + t + s[p:]]. *)
Definition splice (p : nat) (t s : text) : text := take p s ++ t ++ drop p s.

(** [needle in s[i:]] starting exactly at the head of [s]. *)
Fixpoint starts_with (needle s : text) : bool :=
  match needle, s with
  | [], _ => true
  | _ :: _, [] => false
  | a :: needle', b :: s' => Ascii.eqb b a && starts_with needle' s'
  end.

(** [needle in s]. *)
Fixpoint contains (needle s : text) : bool :=
  starts_with needle s ||
  match s with
  | [] => false
  | _ :: s' => contains needle s'
  end.

Definition LF : text := [ascii_of_nat 10].
Definition TAB : text := [ascii_of_nat 9].
Definition DQUOTE : text := [ascii_of_nat 34].

End Text.
Export Text.

(* ------------------------------------------------------------------ *)
(** ** Regular expressions *)

Module Re.

(** The constructs that occur in the script's five patterns.  Every
    repetition of the script is over a single character ([.*], [.*?],
    [[A-F0-9]{24}]), so [Star] takes a character class. *)
Inductive regex : Type :=
  | Eps                                   (* empty pattern *)
  | Chr (c : ascii)                       (* a literal character *)
  | Cls (p : ascii -> bool)               (* a character class *)
  | Seq (r1 r2 : regex)                   (* r1 r2 *)
  | Star (lazy : bool) (p : ascii -> bool)  (* c* (greedy) or c*? (lazy) *)
  | Rep (n : nat) (r : regex)             (* r{n} *)
  | Group (k : nat) (r : regex).          (* the k-th capturing group *)

(** [.] under [re.DOTALL]: any character, newline included. *)
Definition dot : ascii -> bool := fun _ => true.

(** [[A-F0-9]]. *)
Definition hex_upper (c : ascii) : bool :=
  let n := nat_of_ascii c in
  (48 <=? n) && (n <=? 57) || (65 <=? n) && (n <=? 70).

(** A run of literal characters. *)
Fixpoint lit (s : text) : regex :=
  match s with
  | [] => Eps
  | c :: s' => Seq (Chr c) (lit s')
  end.

Fixpoint seqs (rs : list regex) : regex :=
  match rs with
  | [] => Eps
  | r :: rs' => Seq r (seqs rs')
  end.

(** Spans of the capturing groups, the latest binding first. *)
Definition captures := list (nat * (nat * nat)).

Fixpoint capture (k : nat) (g : captures) : option (nat * nat) :=
  match g with
  | [] => None
  | (j, sp) :: g' => if Nat.eqb j k then Some sp else capture k g'
  end.

(** A match object: [m.start()], [m.end()] and the group spans. *)
Record match_obj : Type := MatchObj {
  m_start : nat;
  m_end : nat;
  m_groups : captures
}.

(** The rest of a match: the remaining input, its offset in the whole
    string and the groups captured so far. *)
Definition cont := text -> nat -> captures -> option match_obj.

(** [c*] and [c*?] followed by [k].  Lazy: try [k] first and consume one
    more character only when [k] fails.  Greedy: consume as long as the
    class allows, then give characters back one at a time. *)
Fixpoint star (lazy : bool) (p : ascii -> bool) (k : cont)
    (s : text) (i : nat) (g : captures) : option match_obj :=
  if lazy then
    match k s i g with
    | Some m => Some m
    | None =>
        match s with
        | a :: s' => if p a then star lazy p k s' (S i) g else None
        | [] => None
        end
    end
  else
    match s with
    | a :: s' =>
        if p a then
          match star lazy p k s' (S i) g with
          | Some m => Some m
          | None => k s i g
          end
        else k s i g
    | [] => k s i g
    end.

(** The backtracking matcher, in continuation-passing style: [run r k s i g]
    matches [r] at the head of [s] (offset [i]) and hands what is left to
    [k]; alternatives are tried in the order of Python's engine and the
    first complete match wins. *)
Fixpoint run (r : regex) (k : cont) (s : text) (i : nat) (g : captures)
    : option match_obj :=
  match r with
  | Eps => k s i g
  | Chr c =>
      match s with
      | a :: s' => if Ascii.eqb a c then k s' (S i) g else None
      | [] => None
      end
  | Cls p =>
      match s with
      | a :: s' => if p a then k s' (S i) g else None
      | [] => None
      end
  | Seq r1 r2 => run r1 (run r2 k) s i g
  | Star lazy p => star lazy p k s i g
  | Rep n r1 =>
      (fix rep (n : nat) : cont :=
         match n with
         | 0 => k
         | S n' => run r1 (rep n')
         end) n s i g
  | Group j r1 => run r1 (fun s' i' g' => k s' i' ((j, (i, i')) :: g')) s i g
  end.

(** A match of the whole pattern that starts at offset [i]. *)
Definition match_at (r : regex) (s : text) (i : nat) : option match_obj :=
  run r (fun _ j g => Some (MatchObj i j g)) s i [].

(** [re.search]: the first offset, from the left, at which the pattern
    matches; [s] is the input from offset [i] on. *)
Fixpoint search_from (r : regex) (s : text) (i : nat) : option match_obj :=
  match match_at r s i with
  | Some m => Some m
  | None =>
      match s with
      | [] => None
      | _ :: s' => search_from r s' (S i)
      end
  end.

Definition search (r : regex) (s : text) : option match_obj :=
  search_from r s 0.

(** [m.start(k)], [m.end(k)] and [m.group(k)] of a group that took part in
    the match. *)
Definition group_span (m : match_obj) (k : nat) : nat * nat :=
  match capture k (m_groups m) with
  | Some sp => sp
  | None => (0, 0)
  end.

Definition group (s : text) (m : match_obj) (k : nat) : text :=
  slice (fst (group_span m k)) (snd (group_span m k)) s.

End Re.
Export Re.

(* ------------------------------------------------------------------ *)
(** ** uuid.uuid4().hex[:24].upper() *)

Module Uuid.

Local Open Scope Z_scope.

(** [uuid.UUID(bytes=os.urandom(16), version=4).int]: the sixteen random
    bytes read as a big-endian number, with the variant and version bits
    forced as [UUID.__init__] does. *)
Definition uuid4_int (random : Z) : Z :=
  let int := random mod 2 ^ 128 in
  let int := Z.land int (Z.lnot (Z.shiftl 0xc000 48)) in
  let int := Z.lor int (Z.shiftl 0x8000 48) in
  let int := Z.land int (Z.lnot (Z.shiftl 0xf000 64)) in
  Z.lor int (Z.shiftl 4 76).

Definition hex_alphabet : text := T "0123456789abcdef".

Definition hex_char (d : Z) : ascii :=
  nth (Z.to_nat d) hex_alphabet "0"%char.

(** The [k] low hexadecimal digits of [n], most significant first. *)
Fixpoint hex_digits (k : nat) (n : Z) : text :=
  match k with
  | O => []
  | S k' => hex_digits k' (n / 16) ++ [hex_char (n mod 16)]
  end.

(** [UUID.hex], that is ['%032x' % self.int]; the number is below
    [2 ^ 128] (lemma [uuid4_int_range]), so it has 32 digits. *)
Definition hex (int : Z) : text := hex_digits 32 int.

(** [str.upper] on one character; only the ASCII letters matter here. *)
Definition upper_char (c : ascii) : ascii :=
  let n := nat_of_ascii c in
  if ((97 <=? n) && (n <=? 122))%nat then ascii_of_nat (n - 32) else c.

Definition upper (s : text) : text := map upper_char s.

End Uuid.
Export Uuid.

(* ------------------------------------------------------------------ *)
(** ** Effects *)

Module Py.

(** The one exception the script can meet on its own file: [open] of a
    path that is not there. *)
Inductive exn : Type :=
  | FileNotFoundError (path : text).

(** What the script does to the outside, in order. *)
Inductive event : Type :=
  | Printed (line : text)           (* print(line) *)
  | Written (path data : text).     (* open(path, 'w').write(data) *)

Record world : Type := World {
  files : text -> option text;      (* the file system: what read() returns *)
  entropy : nat -> Z;               (* the n-th answer of os.urandom(16) *)
  drawn : nat;                      (* how many answers were used *)
  events : list event
}.

Inductive outcome (A : Type) : Type :=
  | Ret (a : A)
  | Raise (e : exn).
Arguments Ret {A} a.
Arguments Raise {A} e.

Definition M (A : Type) : Type := world -> outcome A * world.

Definition ret {A} (a : A) : M A := fun w => (Ret a, w).

Definition bind {A B} (m : M A) (f : A -> M B) : M B :=
  fun w =>
    match m w with
    | (Ret a, w') => f a w'
    | (Raise e, w') => (Raise e, w')
    end.

Declare Scope py_scope.
Delimit Scope py_scope with py.
Notation "x <- m ;; k" := (bind m (fun x => k))
  (at level 100, m at next level, right associativity) : py_scope.
Notation "m ;; k" := (bind m (fun _ => k))
  (at level 100, right associativity) : py_scope.

Definition text_eqb (a b : text) : bool := bool_decide (a = b).

(** [with open(path, 'r') as f: content = f.read()]. *)
Definition read_text (path : text) : M text :=
  fun w =>
    match files w path with
    | Some data => (Ret data, w)
    | None => (Raise (FileNotFoundError path), w)
    end.

(** [with open(path, 'w') as f: f.write(data)]. *)
Definition write_text (path data : text) : M unit :=
  fun w =>
    (Ret tt,
     World (fun q => if text_eqb q path then Some data else files w q)
           (entropy w) (drawn w) (events w ++ [Written path data])).

(** [print(line)]. *)
Definition print (line : text) : M unit :=
  fun w =>
    (Ret tt, World (files w) (entropy w) (drawn w) (events w ++ [Printed line])).

(** [os.urandom(16)], read as a number. *)
Definition urandom16 : M Z :=
  fun w =>
    (Ret (entropy w (drawn w)),
     World (files w) (entropy w) (S (drawn w)) (events w)).

(** The lines printed so far, and the writes made so far. *)
Definition stdout (w : world) : list text :=
  omap (fun e => match e with Printed l => Some l | Written _ _ => None end)
       (events w).

Definition writes (w : world) : list (text * text) :=
  omap (fun e => match e with Written p d => Some (p, d) | Printed _ => None end)
       (events w).

End Py.
Export Py.

(* ------------------------------------------------------------------ *)
(** ** The script *)

Module Script.

Local Open Scope py_scope.

(** [str(n)] for a length. *)
Definition str_nat (n : nat) : text :=
  T (DecimalString.NilEmpty.string_of_uint (Nat.to_uint n)).

(** [f"{v}"] for a value that is a string or [None]. *)
Definition fmt (v : option text) : text :=
  match v with
  | Some s => s
  | None => T "None"
  end.

(** Truth value of a string or [None], as [all] sees it. *)
Definition truthy (v : option text) : bool :=
  match v with
  | Some (_ :: _) => true
  | _ => false
  end.

(** [generate_uuid()]. *)
Definition generate_uuid : M text :=
  random <- urandom16 ;;
  ret (upper (take 24 (hex (uuid4_int random)))).

(** An element of [files_to_add]: (filename, filepath, group_uuid). *)
Definition file_to_add : Type := text * text * text.

(** [r'/\* PetSafety \*/.*?isa = PBXGroup;.*?children = \((.*?)\);']
    with [re.DOTALL]. *)
Definition main_sources_pattern : regex :=
  seqs [lit (T "/* PetSafety */"); Star true dot;
        lit (T "isa = PBXGroup;"); Star true dot;
        lit (T "children = ("); Group 1 (Star true dot);
        lit (T ");")].

(** [rf'({group_uuid} /\* .* \*/ = {{.*?children = \()(.*?)(\);.*?isa = PBXGroup;)']
    with [re.DOTALL].  The identifier is pasted into the pattern as it is;
    it stands for itself when it has no character that is special in a
    pattern ([plain_id]), which is the case of every identifier found by
    [find_group_uuid]. *)
Definition group_pattern (group_uuid : text) : regex :=
  seqs [Group 1 (seqs [lit group_uuid; lit (T " /* "); Star false dot;
                       lit (T " */ = {"); Star true dot;
                       lit (T "children = (")]);
        Group 2 (Star true dot);
        Group 3 (seqs [lit (T ");"); Star true dot;
                       lit (T "isa = PBXGroup;")])].

Definition is_alnum (c : ascii) : bool :=
  let n := nat_of_ascii c in
  (48 <=? n) && (n <=? 57) || (65 <=? n) && (n <=? 90)
  || (97 <=? n) && (n <=? 122).

Definition plain_id (group_uuid : text) : bool := forallb is_alnum group_uuid.

(** [r'/\* Begin PBXFileReference section \*/']. *)
Definition file_ref_section_pattern : regex :=
  lit (T "/* Begin PBXFileReference section */").

(** [r'/\* Begin PBXBuildFile section \*/']. *)
Definition build_file_section_pattern : regex :=
  lit (T "/* Begin PBXBuildFile section */").

(** [r'(/\* Sources \*/ = {.*?files = \()(.*?)(\);.*?isa = PBXSourcesBuildPhase;)']
    with [re.DOTALL]. *)
Definition sources_phase_pattern : regex :=
  seqs [Group 1 (seqs [lit (T "/* Sources */ = {"); Star true dot;
                       lit (T "files = (")]);
        Group 2 (Star true dot);
        Group 3 (seqs [lit (T ");"); Star true dot;
                       lit (T "isa = PBXSourcesBuildPhase;")])].

(** The formatted entries. *)
Definition file_ref_entry (file_ref_uuid filename : text) : text :=
  TAB ++ TAB ++ file_ref_uuid ++ T " /* " ++ filename
  ++ T " */ = {isa = PBXFileReference; lastKnownFileType = sourcecode.swift; path = "
  ++ filename ++ T "; sourceTree = " ++ DQUOTE ++ T "<group>" ++ DQUOTE
  ++ T "; };" ++ LF.

Definition build_file_entry (build_file_uuid file_ref_uuid filename : text)
    : text :=
  TAB ++ TAB ++ build_file_uuid ++ T " /* " ++ filename
  ++ T " in Sources */ = {isa = PBXBuildFile; fileRef = " ++ file_ref_uuid
  ++ T " /* " ++ filename ++ T " */; };" ++ LF.

Definition new_child_entry (file_ref_uuid filename : text) : text :=
  LF ++ TAB ++ TAB ++ TAB ++ TAB ++ file_ref_uuid ++ T " /* " ++ filename
  ++ T " */,".

Definition sources_entry (uuid name : text) : text :=
  LF ++ TAB ++ TAB ++ TAB ++ TAB ++ uuid ++ T " /* " ++ name
  ++ T " in Sources */,".

(** The local variables the first loop updates. *)
Record locals : Type := Locals {
  content : text;
  file_references : list (text * text * text);
  build_file_entries : list (text * text * text);
  sources_build_phase_entries : list (text * text)
}.

(** [for filename, filepath, group_uuid in files_to_add: ...]. *)
Fixpoint for_files (files_to_add : list file_to_add) (l : locals)
    : M locals :=
  match files_to_add with
  | [] => ret l
  | (filename, filepath, group_uuid) :: rest =>
      file_ref_uuid <- generate_uuid ;;
      build_file_uuid <- generate_uuid ;;
      let file_ref := file_ref_entry file_ref_uuid filename in
      let file_references :=
        file_references l ++ [(file_ref_uuid, filename, file_ref)] in
      let build_file := build_file_entry build_file_uuid file_ref_uuid filename in
      let build_file_entries :=
        build_file_entries l ++ [(build_file_uuid, filename, build_file)] in
      let sources_build_phase_entries :=
        sources_build_phase_entries l ++ [(build_file_uuid, filename)] in
      match search (group_pattern group_uuid) (content l) with
      | Some group_match =>
          let existing_children := group (content l) group_match 2 in
          let new_child := new_child_entry file_ref_uuid filename in
          let updated_children := existing_children ++ new_child in
          let content :=
            take (fst (group_span group_match 2)) (content l)
            ++ updated_children
            ++ drop (snd (group_span group_match 2)) (content l) in
          print (T "✓ Added " ++ filename ++ T " to group") ;;
          for_files rest
            (Locals content file_references build_file_entries
                    sources_build_phase_entries)
      | None =>
          print (T "✗ Could not find group " ++ group_uuid ++ T " for "
                 ++ filename) ;;
          for_files rest
            (Locals (content l) file_references build_file_entries
                    sources_build_phase_entries)
      end
  end.

(** [for uuid, name, ref in entries:
       content = content[:insert_pos] + '\n' + ref + content[insert_pos:]
       insert_pos += len('\n' + ref)]
    (the second and third loops). *)
Fixpoint for_entries (entries : list (text * text * text)) (content : text)
    (insert_pos : nat) : text :=
  match entries with
  | [] => content
  | (uuid, name, ref) :: rest =>
      for_entries rest
        (take insert_pos content ++ LF ++ ref ++ drop insert_pos content)
        (insert_pos + length (LF ++ ref))
  end.

(** [for uuid, name in sources_build_phase_entries:
       new_files_str += f"\n\t\t\t\t{uuid} /* {name} in Sources */,"]. *)
Fixpoint for_sources (entries : list (text * text)) (new_files_str : text)
    : text :=
  match entries with
  | [] => new_files_str
  | (uuid, name) :: rest =>
      for_sources rest (new_files_str ++ sources_entry uuid name)
  end.

(** [add_files_to_xcode_project(project_path, files_to_add,
    group_name_to_uuid)]; the third argument is never read. *)
Definition add_files_to_xcode_project (project_path : text)
    (files_to_add : list file_to_add)
    (group_name_to_uuid : list (text * text)) : M bool :=
  content <- read_text project_path ;;
  match search main_sources_pattern content with
  | None =>
      print (T "ERROR: Could not find main PetSafety group") ;;
      ret false
  | Some main_sources_match =>
      l <- for_files files_to_add (Locals content [] [] []) ;;
      let content := Script.content l in
      content <-
        match search file_ref_section_pattern content with
        | Some pbx_file_ref_section =>
            let insert_pos := m_end pbx_file_ref_section in
            let content := for_entries (file_references l) content insert_pos in
            print (T "✓ Added " ++ str_nat (length (file_references l))
                   ++ T " file references") ;;
            ret content
        | None => ret content
        end ;;
      content <-
        match search build_file_section_pattern content with
        | Some pbx_build_file_section =>
            let insert_pos := m_end pbx_build_file_section in
            let content :=
              for_entries (build_file_entries l) content insert_pos in
            print (T "✓ Added " ++ str_nat (length (build_file_entries l))
                   ++ T " build file entries") ;;
            ret content
        | None => ret content
        end ;;
      content <-
        match search sources_phase_pattern content with
        | Some sources_match =>
            let existing_files := group content sources_match 2 in
            let new_files_str :=
              for_sources (sources_build_phase_entries l) [] in
            let updated_files := existing_files ++ new_files_str in
            let content :=
              take (fst (group_span sources_match 2)) content
              ++ updated_files
              ++ drop (snd (group_span sources_match 2)) content in
            print (T "✓ Added "
                   ++ str_nat (length (sources_build_phase_entries l))
                   ++ T " files to Sources build phase") ;;
            ret content
        | None =>
            print (T "✗ Could not find Sources build phase") ;;
            ret content
        end ;;
      write_text project_path content ;;
      ret true
  end.

(** [rf'([A-F0-9]{{24}}) /\* {re.escape(group_name)} \*/']; [re.escape]
    makes every character of the name stand for itself. *)
Definition find_group_pattern (group_name : text) : regex :=
  seqs [Group 1 (Rep 24 (Cls hex_upper)); lit (T " /* "); lit group_name;
        lit (T " */")].

(** [find_group_uuid(content, group_name)]. *)
Definition find_group_uuid (content group_name : text) : option text :=
  match search (find_group_pattern group_name) content with
  | Some m => Some (group content m 1)
  | None => None
  end.

(** The value of a variable known to hold a string. *)
Definition the_str (v : option text) : text :=
  match v with
  | Some s => s
  | None => []
  end.

Definition project_file : text := T "PetSafety.xcodeproj/project.pbxproj".

(** [main()]. *)
Definition main : M unit :=
  content <- read_text project_file ;;
  let services_uuid := find_group_uuid content (T "Services") in
  let views_uuid := find_group_uuid content (T "Views") in
  let components_uuid := find_group_uuid content (T "Components") in
  let models_uuid := find_group_uuid content (T "Models") in
  print (T "Found group UUIDs:") ;;
  print (T "  Services: " ++ fmt services_uuid) ;;
  print (T "  Views: " ++ fmt views_uuid) ;;
  print (T "  Components: " ++ fmt components_uuid) ;;
  print (T "  Models: " ++ fmt models_uuid) ;;
  print [] ;;
  if negb (forallb truthy
             [services_uuid; views_uuid; components_uuid; models_uuid])
  then
    print (T "ERROR: Could not find all required group UUIDs") ;;
    ret tt
  else
    let files_to_add : list file_to_add :=
      [(T "NetworkMonitor.swift", T "Services/NetworkMonitor.swift",
        the_str services_uuid);
       (T "OfflineDataManager.swift", T "Services/OfflineDataManager.swift",
        the_str services_uuid);
       (T "SyncService.swift", T "Services/SyncService.swift",
        the_str services_uuid);
       (T "OfflineIndicator.swift", T "Views/Components/OfflineIndicator.swift",
        the_str components_uuid)] in
    print (T "Adding files to Xcode project...") ;;
    ok <- add_files_to_xcode_project project_file files_to_add [] ;;
    if ok then
      print (LF ++ T "✅ Successfully added all files to Xcode project!") ;;
      print (LF ++ T "NOTE: The Core Data model (PetSafety.xcdatamodeld) needs to be added manually") ;;
      print (T "      or you can open Xcode and use File > Add Files to add it.")
    else
      print (LF ++ T "❌ Failed to add files to project").

End Script.
Export Script.

(* ------------------------------------------------------------------ *)
(** ** Vocabulary of the statements *)

(** What a successful match consumed: [derives r t i g] says that [r]
    matches the characters [t] from offset [i] on and binds the groups
    [g] (latest first). *)
Inductive derives : regex -> text -> nat -> captures -> Prop :=
  | D_Eps i : derives Eps [] i []
  | D_Chr c i : derives (Chr c) [c] i []
  | D_Cls p a i : p a = true -> derives (Cls p) [a] i []
  | D_Seq r1 r2 t1 t2 i g1 g2 :
      derives r1 t1 i g1 ->
      derives r2 t2 (i + length t1) g2 ->
      derives (Seq r1 r2) (t1 ++ t2) i (g2 ++ g1)
  | D_Star lazy p t i :
      forallb p t = true -> derives (Star lazy p) t i []
  | D_Rep0 r i : derives (Rep 0 r) [] i []
  | D_RepS n r t1 t2 i g1 g2 :
      derives r t1 i g1 ->
      derives (Rep n r) t2 (i + length t1) g2 ->
      derives (Rep (S n) r) (t1 ++ t2) i (g2 ++ g1)
  | D_Group j r t i g :
      derives r t i g ->
      derives (Group j r) t i ((j, (i, i + length t)) :: g).

(** The continuation [k] succeeds after a prefix that [P] accepts. *)
Definition succeeds_after (P : text -> captures -> Prop) (k : cont)
    (s : text) (i : nat) (g : captures)
    (m : match_obj) : Prop :=
  exists t g' rest,
    P t g' /\ s = t ++ rest /\ k rest (i + length t) (g' ++ g) = Some m.

(** The first offset of [s] from which [test] holds. *)
Fixpoint find_first (test : text -> bool) (s : text) : option nat :=
  if test s then Some 0
  else match s with
       | [] => None
       | _ :: s' => option_map S (find_first test s')
       end.

(** *** A run of the editor, step by step *)

Definition filename_of (f : file_to_add) : text := f.1.1.
Definition group_uuid_of (f : file_to_add) : text := f.2.

(** The identifier [generate_uuid] makes from the [k]-th answer of the
    entropy source. *)
Definition drawn_uuid (e : nat -> Z) (k : nat) : text :=
  upper (take 24 (hex (uuid4_int (e k)))).

(** The files to add, each with the two identifiers drawn for it (first
    the file reference's, then the build file's), from draw [k] on. *)
Fixpoint jobs (e : nat -> Z) (k : nat) (fs : list file_to_add)
    : list (file_to_add * (text * text)) :=
  match fs with
  | [] => []
  | f :: rest =>
      (f, (drawn_uuid e k, drawn_uuid e (S k))) :: jobs e (S (S k)) rest
  end.

Definition file_ref_uuid_of (j : file_to_add * (text * text)) : text := j.2.1.
Definition build_file_uuid_of (j : file_to_add * (text * text)) : text := j.2.2.

Definition file_reference_of (j : file_to_add * (text * text))
    : text * text * text :=
  (file_ref_uuid_of j, filename_of j.1,
   file_ref_entry (file_ref_uuid_of j) (filename_of j.1)).

Definition build_file_of (j : file_to_add * (text * text))
    : text * text * text :=
  (build_file_uuid_of j, filename_of j.1,
   build_file_entry (build_file_uuid_of j) (file_ref_uuid_of j)
                    (filename_of j.1)).

Definition sources_of (j : file_to_add * (text * text)) : text * text :=
  (build_file_uuid_of j, filename_of j.1).

(** What the body of the first loop does to the text for one job. *)
Definition add_child (c : text) (j : file_to_add * (text * text)) : text :=
  match search (group_pattern (group_uuid_of j.1)) c with
  | Some m =>
      take (fst (group_span m 2)) c
      ++ (group c m 2 ++ new_child_entry (file_ref_uuid_of j) (filename_of j.1))
      ++ drop (snd (group_span m 2)) c
  | None => c
  end.

Definition child_line (c : text) (j : file_to_add * (text * text)) : text :=
  match search (group_pattern (group_uuid_of j.1)) c with
  | Some _ => T "✓ Added " ++ filename_of j.1 ++ T " to group"
  | None =>
      T "✗ Could not find group " ++ group_uuid_of j.1 ++ T " for "
      ++ filename_of j.1
  end.

Fixpoint children_pass (js : list (file_to_add * (text * text))) (c : text)
    : text :=
  match js with
  | [] => c
  | j :: rest => children_pass rest (add_child c j)
  end.

Fixpoint children_lines (js : list (file_to_add * (text * text))) (c : text)
    : list text :=
  match js with
  | [] => []
  | j :: rest => child_line c j :: children_lines rest (add_child c j)
  end.

(** The declarations of a section, each after a line feed. *)
Definition section_block (entries : list (text * text * text)) : text :=
  concat (map (fun e => LF ++ e.2) entries).

(** The second and third steps: the block goes in right after the section
    header, when the header is found. *)
Definition section_step (header : regex) (entries : list (text * text * text))
    (c : text) : text :=
  match search header c with
  | Some m => splice (m_end m) (section_block entries) c
  | None => c
  end.

Definition section_line (header : regex) (n : nat) (what : text) (c : text)
    : list text :=
  match search header c with
  | Some _ => [T "✓ Added " ++ str_nat n ++ what]
  | None => []
  end.

Definition sources_block (entries : list (text * text)) : text :=
  concat (map (fun e => sources_entry e.1 e.2) entries).

(** The fourth step. *)
Definition sources_step (entries : list (text * text)) (c : text) : text :=
  match search sources_phase_pattern c with
  | Some m =>
      take (fst (group_span m 2)) c
      ++ (group c m 2 ++ sources_block entries)
      ++ drop (snd (group_span m 2)) c
  | None => c
  end.

Definition sources_line (n : nat) (c : text) : text :=
  match search sources_phase_pattern c with
  | Some _ => T "✓ Added " ++ str_nat n ++ T " files to Sources build phase"
  | None => T "✗ Could not find Sources build phase"
  end.

(** The text after each of the four steps. *)
Definition after_children (js : list (file_to_add * (text * text))) (c : text)
    : text :=
  children_pass js c.

Definition after_file_refs (js : list (file_to_add * (text * text)))
    (c : text) : text :=
  section_step file_ref_section_pattern (map file_reference_of js)
               (after_children js c).

Definition after_build_files (js : list (file_to_add * (text * text)))
    (c : text) : text :=
  section_step build_file_section_pattern (map build_file_of js)
               (after_file_refs js c).

Definition after_sources (js : list (file_to_add * (text * text))) (c : text)
    : text :=
  sources_step (map sources_of js) (after_build_files js c).

(** The lines a successful run prints. *)
Definition report (js : list (file_to_add * (text * text))) (c : text)
    : list text :=
  children_lines js c
  ++ section_line file_ref_section_pattern (length js)
       (T " file references") (after_children js c)
  ++ section_line build_file_section_pattern (length js)
       (T " build file entries") (after_file_refs js c)
  ++ [sources_line (length js) (after_build_files js c)].

(** The world after [path] was rewritten with [data] and [lines] were
    printed before that, [n] answers of the entropy source being used. *)
Definition rewritten (w : world) (path data : text) (lines : list text)
    (n : nat) : world :=
  World (fun q => if text_eqb q path then Some data else files w q)
        (entropy w) (drawn w + n)
        (events w ++ map Printed lines ++ [Written path data]).

Definition printed (w : world) (lines : list text) : world :=
  World (files w) (entropy w) (drawn w) (events w ++ map Printed lines).

(** The identifiers the model covers: see [group_pattern]. *)
Definition plain_files (fs : list file_to_add) : bool :=
  forallb (fun f => plain_id (group_uuid_of f)) fs.

(** [[0-9a-f]]. *)
Definition hex_lower (c : ascii) : bool :=
  let n := nat_of_ascii c in
  (48 <=? n) && (n <=? 57) || (97 <=? n) && (n <=? 102).

(** [s] begins with an identifier of 24 characters of [[A-F0-9]] followed
    by the comment [/* group_name */]. *)
Definition id_comment_here (group_name s : text) : bool :=
  (24 <=? length s) && forallb hex_upper (take 24 s)
  && starts_with (T " /* " ++ group_name ++ T " */") (drop 24 s).

(** The four group names [main] looks up. *)
Definition required_groups : list text :=
  [T "Services"; T "Views"; T "Components"; T "Models"].

(** No step of the editor finds its place in [c]. *)
Definition nothing_matches (fs : list file_to_add) (c : text) : Prop :=
  Forall (fun f => search (group_pattern (group_uuid_of f)) c = None) fs /\
  search file_ref_section_pattern c = None /\
  search build_file_section_pattern c = None /\
  search sources_phase_pattern c = None.

(** The lines [main] prints before it decides. *)
Definition listing (content : text) : list text :=
  [T "Found group UUIDs:";
   T "  Services: " ++ fmt (find_group_uuid content (T "Services"));
   T "  Views: " ++ fmt (find_group_uuid content (T "Views"));
   T "  Components: " ++ fmt (find_group_uuid content (T "Components"));
   T "  Models: " ++ fmt (find_group_uuid content (T "Models"));
   []].

(** *** Sample data *)

Module Samples.

(** One line of a manifest. *)
Definition L (s : string) : text := T s ++ LF.

Definition prologue : text :=
  L "// !$*UTF8*$!" ++
  L "{" ++
  L "  objects = {" ++
  L "".

Definition epilogue : text :=
  L "  };" ++
  L "}".

Definition build_file_section : text :=
  L "/* Begin PBXBuildFile section */" ++
  L "    1A0000000000000000000001 /* App.swift in Sources */ = {isa = PBXBuildFile; fileRef = 1A0000000000000000000002 /* App.swift */; };" ++
  L "/* End PBXBuildFile section */" ++
  L "".

Definition file_reference_section : text :=
  L "/* Begin PBXFileReference section */" ++
  L "    1A0000000000000000000002 /* App.swift */ = {isa = PBXFileReference; lastKnownFileType = sourcecode.swift; path = App.swift; sourceTree = SOURCE_ROOT; };" ++
  L "/* End PBXFileReference section */" ++
  L "".

(** The groups PetSafety, Services, Views, Components and Models, in the
    layout Xcode writes.  The three arguments stand right before the
    [);] that closes the children of Services, of Components and of
    Models. *)
Definition group_section (services components models : text) : text :=
  L "/* Begin PBXGroup section */" ++
  L "    1A0000000000000000000010 = {" ++
  L "      isa = PBXGroup;" ++
  L "      children = (" ++
  L "        1A0000000000000000000011 /* PetSafety */," ++
  L "      );" ++
  L "    };" ++
  L "    1A0000000000000000000011 /* PetSafety */ = {" ++
  L "      isa = PBXGroup;" ++
  L "      children = (" ++
  L "        1A0000000000000000000012 /* Services */," ++
  L "        1A0000000000000000000013 /* Views */," ++
  L "        1A0000000000000000000015 /* Models */," ++
  L "      );" ++
  L "    };" ++
  L "    1A0000000000000000000012 /* Services */ = {" ++
  L "      isa = PBXGroup;" ++
  L "      children = (" ++
  T "      " ++ services ++ L ");" ++
  L "    };" ++
  L "    1A0000000000000000000013 /* Views */ = {" ++
  L "      isa = PBXGroup;" ++
  L "      children = (" ++
  L "        1A0000000000000000000014 /* Components */," ++
  L "      );" ++
  L "    };" ++
  L "    1A0000000000000000000014 /* Components */ = {" ++
  L "      isa = PBXGroup;" ++
  L "      children = (" ++
  T "      " ++ components ++ L ");" ++
  L "    };" ++
  L "    1A0000000000000000000015 /* Models */ = {" ++
  L "      isa = PBXGroup;" ++
  L "      children = (" ++
  T "      " ++ models ++ L ");" ++
  L "    };" ++
  L "/* End PBXGroup section */" ++
  L "".

(** The compile phase of the application alone. *)
Definition one_sources_phase : text :=
  L "/* Begin PBXSourcesBuildPhase section */" ++
  L "    1A0000000000000000000020 /* Sources */ = {" ++
  L "      isa = PBXSourcesBuildPhase;" ++
  L "      files = (" ++
  L "      );" ++
  L "    };" ++
  L "/* End PBXSourcesBuildPhase section */".

(** The compile phases of the application and of its test target. *)
Definition two_sources_phases : text :=
  L "/* Begin PBXSourcesBuildPhase section */" ++
  L "    1A0000000000000000000020 /* Sources */ = {" ++
  L "      isa = PBXSourcesBuildPhase;" ++
  L "      files = (" ++
  L "        1A0000000000000000000001 /* App.swift in Sources */," ++
  L "      );" ++
  L "    };" ++
  L "    1A0000000000000000000021 /* Sources */ = {" ++
  L "      isa = PBXSourcesBuildPhase;" ++
  L "      files = (" ++
  L "      );" ++
  L "    };" ++
  L "/* End PBXSourcesBuildPhase section */".

(** A project with one source file, an application and a test target. *)
Definition manifest (services components models : text) : text :=
  prologue ++ build_file_section ++ file_reference_section
  ++ group_section services components models
  ++ two_sources_phases ++ epilogue.

(** A project that has its groups but no file yet, hence neither a
    PBXBuildFile nor a PBXFileReference section. *)
Definition empty_project : text :=
  prologue ++ group_section [] [] [] ++ one_sources_phase ++ epilogue.



Definition services_uuid : text := T "1A0000000000000000000012".
Definition components_uuid : text := T "1A0000000000000000000014".

(** A world whose only file is [data] at [path]; the [n]-th answer of the
    entropy source is made of [n]. *)
Definition world_with (path data : text) : world :=
  World (fun q => if text_eqb q path then Some data else None)
        (fun n => (Z.of_nat n + 1) * 0x0123456789abcdef0123456789abcdef)%Z
        0 [].

Definition network_monitor : file_to_add :=
  (T "NetworkMonitor.swift", T "Services/NetworkMonitor.swift", services_uuid).

(** A project with one source file and the application target alone. *)
Definition one_target : text :=
  prologue ++ build_file_section ++ file_reference_section
  ++ group_section [] [] []
  ++ one_sources_phase ++ epilogue.

(** The project of the running examples, the world that holds it and the
    one file added to it. *)
Definition c0 : text := manifest [] [] [].
Definition w0 : world := world_with project_file c0.
Definition one_file : list file_to_add := [network_monitor].

(** The two identifiers a first run draws for its first file. *)
Definition first_ref_uuid : text := drawn_uuid (entropy w0) 0.

End Samples.

(** The jobs of a run that starts in [w], and of the run after it. *)
Definition run_jobs (w : world) (fs : list file_to_add)
    : list (file_to_add * (text * text)) :=
  jobs (entropy w) (drawn w) fs.


(** [re.search(r, c)] is not [None]. *)
Definition found (r : regex) (c : text) : bool :=
  match search r c with
  | Some _ => true
  | None => false
  end.

(** Every job finds its group when its turn comes. *)
Fixpoint groups_found (js : list (file_to_add * (text * text))) (c : text)
    : bool :=
  match js with
  | [] => true
  | j :: rest =>
      found (group_pattern (group_uuid_of j.1)) c
      && groups_found rest (add_child c j)
  end.

(** The blocks of entries of a list of jobs, as they go into the text. *)
Definition file_refs_block (js : list (file_to_add * (text * text))) : text :=
  concat (map (fun j => LF ++ file_ref_entry (file_ref_uuid_of j)
                                             (filename_of j.1)) js).

Definition build_files_block (js : list (file_to_add * (text * text)))
    : text :=
  concat (map (fun j => LF ++ build_file_entry (build_file_uuid_of j)
                                               (file_ref_uuid_of j)
                                               (filename_of j.1)) js).

Definition sources_entries_block (js : list (file_to_add * (text * text)))
    : text :=
  concat (map (fun j => sources_entry (build_file_uuid_of j)
                                      (filename_of j.1)) js).

(** [c'] is [c] with the child entry of every job put in, one job after
    the other, at the end of a children list: right before the [);] that
    closes it. *)
Inductive children_inserted
    : list (file_to_add * (text * text)) -> text -> text -> Prop :=
  | CI_nil c : children_inserted [] c c
  | CI_cons j js before kids rest c' :
      children_inserted js
        (before ++ T "children = (" ++ kids
         ++ new_child_entry (file_ref_uuid_of j) (filename_of j.1)
         ++ T ");" ++ rest) c' ->
      children_inserted (j :: js)
        (before ++ T "children = (" ++ kids ++ T ");" ++ rest) c'.

(** [t] goes into [c] right after the first occurrence of [header]. *)
Definition inserted_after (header t c c' : text) : Prop :=
  exists pre rest,
    c = pre ++ header ++ rest /\
    (forall j, j < length pre -> starts_with header (drop j c) = false) /\
    c' = pre ++ header ++ t ++ rest.

(** [t] goes into [c] at the end of a [files = (] list: right before the
    [);] that closes it. *)
Definition inserted_in_files (t c c' : text) : Prop :=
  exists before files rest,
    c = before ++ T "files = (" ++ files ++ T ");" ++ rest /\
    c' = before ++ T "files = (" ++ files ++ t ++ T ");" ++ rest.

(** The lines of a run in which every step found its place. *)
Definition added_to_group_lines (js : list (file_to_add * (text * text)))
    : list text :=
  map (fun j => T "✓ Added " ++ filename_of j.1 ++ T " to group") js.



(** *** More vocabulary: [main], files without a group, identifiers *)

(** The list [main] hands to the editor once the four names have an
    identifier in [content]. *)
Definition main_files (content : text) : list file_to_add :=
  [(T "NetworkMonitor.swift", T "Services/NetworkMonitor.swift",
    the_str (find_group_uuid content (T "Services")));
   (T "OfflineDataManager.swift", T "Services/OfflineDataManager.swift",
    the_str (find_group_uuid content (T "Services")));
   (T "SyncService.swift", T "Services/SyncService.swift",
    the_str (find_group_uuid content (T "Services")));
   (T "OfflineIndicator.swift", T "Views/Components/OfflineIndicator.swift",
    the_str (find_group_uuid content (T "Components")))].

(** The last lines of [main] when the editor returned [True], and when it
    returned [False]. *)
Definition success_lines : list text :=
  [LF ++ T "✅ Successfully added all files to Xcode project!";
   LF ++ T "NOTE: The Core Data model (PetSafety.xcdatamodeld) needs to be added manually";
   T "      or you can open Xcode and use File > Add Files to add it."].

Definition failure_line : text := LF ++ T "❌ Failed to add files to project".

(** No file of the list finds its group in [c]. *)
Definition no_group_found (fs : list file_to_add) (c : text) : bool :=
  forallb (fun f => negb (found (group_pattern (group_uuid_of f)) c)) fs.

(** The lines of the first loop when no file finds its group. *)
Definition group_not_found_lines (fs : list file_to_add) : list text :=
  map (fun f => T "✗ Could not find group " ++ group_uuid_of f ++ T " for "
                ++ filename_of f) fs.

(** The comment that follows an identifier in [find_group_uuid]'s
    pattern. *)
Definition name_comment (group_name : text) : text :=
  T " /* " ++ group_name ++ T " */".

(** The child entries of a list of jobs, one after the other. *)
Definition child_entries_block (js : list (file_to_add * (text * text)))
    : text :=
  concat (map (fun j => new_child_entry (file_ref_uuid_of j)
                                        (filename_of j.1)) js).

(** *** More sample data *)

Module MoreSamples.

(** A file whose group identifier is nowhere in the sample projects. *)
Definition stray_file : file_to_add :=
  (T "Stray.swift", T "Stray.swift", T "FFFFFFFFFFFFFFFFFFFFFFFF").

(** The four groups without the group PetSafety above them. *)
Definition no_main_group : text :=
  Samples.L "1A0000000000000000000012 /* Services */ = { isa = PBXGroup; children = ( ); };" ++
  Samples.L "1A0000000000000000000013 /* Views */ = { isa = PBXGroup; children = ( ); };" ++
  Samples.L "1A0000000000000000000014 /* Components */ = { isa = PBXGroup; children = ( ); };" ++
  Samples.L "1A0000000000000000000015 /* Models */ = { isa = PBXGroup; children = ( ); };".

(** A project with a PBXBuildFile section and no PBXFileReference
    section. *)
Definition no_file_references : text :=
  Samples.prologue ++ Samples.build_file_section
  ++ Samples.group_section [] [] []
  ++ Samples.two_sources_phases ++ Samples.epilogue.

(** The world [w] with every answer of the entropy source raised by
    one. *)
Definition bumped (w : world) : world :=
  World (files w) (fun n => entropy w n + 1)%Z (drawn w) (events w).

End MoreSamples.

(* ------------------------------------------------------------------ *)
(** ** Lemmas on text *)

Section TextLemmas.

Lemma starts_with_app (needle s : text) :
  starts_with needle s = true <-> exists rest, s = needle ++ rest.
Proof.
  revert s; induction needle as [|a needle IH]; intros s; simpl.
  - split; [intros _; exists s; reflexivity | reflexivity].
  - destruct s as [|b s].
    + split; [discriminate | intros [rest H]; discriminate].
    + rewrite andb_true_iff, Ascii.eqb_eq, IH. split.
      * intros [-> [rest ->]]. exists rest. reflexivity.
      * intros [rest H]. injection H as -> ->. split; [reflexivity | eauto].
Qed.

Lemma starts_with_drop (needle s : text) :
  starts_with needle s = true -> s = needle ++ drop (length needle) s.
Proof.
  intros H. apply starts_with_app in H as [rest ->].
  rewrite drop_app_length. reflexivity.
Qed.

(** Splicing at [p] and then at [p + length t] is splicing the two
    insertions together at [p]. *)
Lemma splice_splice (p : nat) (t u s : text) :
  splice (p + length t) u (splice p t s) = splice p (t ++ u) s.
Proof.
  unfold splice.
  destruct (decide (p <= length s)) as [Hp|Hp].
  - assert (Hl : length (take p s) = p) by (rewrite length_take; lia).
    rewrite (app_assoc (take p s) t).
    assert (Hlt : length (take p s ++ t) = p + length t)
      by (rewrite length_app; lia).
    rewrite <- Hlt at 1. rewrite take_app_length.
    rewrite <- Hlt. rewrite drop_app_length.
    rewrite <- !app_assoc. reflexivity.
  - rewrite (take_ge s p) by lia. rewrite (drop_ge s p) by lia.
    rewrite !app_nil_r.
    rewrite take_ge by (rewrite length_app; lia).
    rewrite drop_ge by (rewrite length_app; lia).
    rewrite app_nil_r, <- app_assoc. reflexivity.
Qed.

Lemma splice_nil (p : nat) (s : text) : splice p [] s = s.
Proof. unfold splice. simpl. apply take_drop. Qed.

(** The edit [s[:a] + (s[a:b] + t) + s[b:]] is an insertion at [b] when
    [a <= b]. *)
Lemma slice_edit_splice (a b : nat) (t s : text) :
  a <= b ->
  take a s ++ (slice a b s ++ t) ++ drop b s = splice b t s.
Proof.
  intros Hab. unfold slice, splice.
  rewrite <- app_assoc, app_assoc, take_take_drop.
  replace (a + (b - a)) with b by lia. reflexivity.
Qed.

Lemma sublist_splice (p : nat) (t s : text) : sublist s (splice p t s).
Proof.
  unfold splice. rewrite <- (take_drop p s) at 1.
  apply sublist_app; [reflexivity|]. apply sublist_inserts_l. reflexivity.
Qed.

(** The same edit never loses a character, whatever the two offsets. *)
Lemma sublist_slice_edit (a b : nat) (t s : text) :
  sublist s (take a s ++ (slice a b s ++ t) ++ drop b s).
Proof.
  destruct (decide (a <= b)) as [Hab|Hab].
  - rewrite slice_edit_splice by assumption. apply sublist_splice.
  - rewrite <- (take_drop a s) at 1.
    apply sublist_app; [reflexivity|]. apply sublist_inserts_l.
    replace a with (b + (a - b)) by lia. rewrite <- drop_drop.
    apply sublist_drop.
Qed.

End TextLemmas.

(* ------------------------------------------------------------------ *)
(** ** Lemmas on the matcher *)

Section Matcher.

Implicit Types (r : regex) (k : cont) (s t : text) (g : captures).

Lemma star_sound lazy p k s i g m :
  star lazy p k s i g = Some m ->
  succeeds_after (fun t g' => forallb p t = true /\ g' = []) k s i g m.
Proof.
  revert i. induction s as [|a s IH]; intros i H.
  - assert (Hk : k [] i g = Some m).
    { destruct lazy; simpl in H; [destruct (k [] i g); congruence | exact H]. }
    exists [], [], []. rewrite Nat.add_0_r. auto.
  - assert (Hcases : k (a :: s) i g = Some m \/
                     (p a = true /\ star lazy p k s (S i) g = Some m)).
    { destruct lazy; simpl in H.
      - destruct (k (a :: s) i g); [left; exact H|].
        destruct (p a); [right; auto | discriminate].
      - destruct (p a); [|left; exact H].
        destruct (star false p k s (S i) g); [right; auto | left; exact H]. }
    destruct Hcases as [Hk | [Hp Hs]].
    + exists [], [], (a :: s). rewrite Nat.add_0_r. auto.
    + apply IH in Hs as (t & g' & rest & [Ht ->] & -> & Hk).
      exists (a :: t), [], rest. simpl in *. rewrite Hp, Ht.
      replace (i + S (length t)) with (S i + length t) by lia. auto.
Qed.

(** Soundness of the matcher: when [run r k] succeeds, [r] has consumed a
    prefix it derives and [k] has succeeded on what is left. *)
Lemma run_sound r : forall k s i g m,
  run r k s i g = Some m ->
  succeeds_after (fun t g' => derives r t i g') k s i g m.
Proof.
  induction r as [|c|p|r1 IH1 r2 IH2|lazy p|n r1 IH1|j r1 IH1];
    intros k s i g m H; simpl in H.
  - exists [], [], s. rewrite Nat.add_0_r. split; [constructor | auto].
  - destruct s as [|a s]; [discriminate|].
    destruct (Ascii.eqb_spec a c) as [->|]; [|discriminate].
    exists [c], [], s. replace (i + length [c]) with (S i) by (simpl; lia).
    split; [constructor | auto].
  - destruct s as [|a s]; [discriminate|].
    destruct (p a) eqn:Hp; [|discriminate].
    exists [a], [], s. replace (i + length [a]) with (S i) by (simpl; lia).
    split; [constructor; exact Hp | auto].
  - apply IH1 in H as (t1 & g1 & rest1 & D1 & -> & H).
    apply IH2 in H as (t2 & g2 & rest2 & D2 & -> & H).
    exists (t1 ++ t2), (g2 ++ g1), rest2.
    rewrite length_app, Nat.add_assoc, <- !app_assoc.
    split; [econstructor; eassumption | auto].
  - apply star_sound in H as (t & g' & rest & [Ht ->] & -> & H).
    exists t, [], rest. split; [constructor; exact Ht | auto].
  - revert s i g H. induction n as [|n IHn]; intros s i g H.
    + exists [], [], s. rewrite Nat.add_0_r. split; [constructor | auto].
    + apply IH1 in H as (t1 & g1 & rest1 & D1 & -> & H).
      apply IHn in H as (t2 & g2 & rest2 & D2 & -> & H).
      exists (t1 ++ t2), (g2 ++ g1), rest2.
      rewrite length_app, Nat.add_assoc, <- !app_assoc.
      split; [econstructor; eassumption | auto].
  - apply IH1 in H as (t & g' & rest & D & -> & H).
    exists t, ((j, (i, i + length t)) :: g'), rest.
    split; [constructor; exact D | auto].
Qed.

Lemma search_from_sound r s i m :
  search_from r s i = Some m ->
  exists pre rest, s = pre ++ rest /\
    match_at r rest (i + length pre) = Some m.
Proof.
  revert i. induction s as [|a s IH]; intros i H; simpl in H.
  - destruct (match_at r [] i) eqn:E; [|discriminate].
    exists [], []. rewrite Nat.add_0_r. split; [reflexivity | congruence].
  - destruct (match_at r (a :: s) i) eqn:E.
    + exists [], (a :: s). rewrite Nat.add_0_r.
      split; [reflexivity | congruence].
    + apply IH in H as (pre & rest & -> & H).
      exists (a :: pre), rest. simpl.
      replace (i + S (length pre)) with (S i + length pre) by lia. auto.
Qed.

(** Soundness of [re.search]: the text splits into what precedes the
    match, the matched characters and the rest; the match object has the
    two offsets and the groups of a derivation. *)
Lemma search_sound r s m :
  search r s = Some m ->
  exists pre t rest g,
    s = pre ++ t ++ rest /\
    derives r t (length pre) g /\
    m = MatchObj (length pre) (length pre + length t) g.
Proof.
  intros H. apply search_from_sound in H as (pre & rest & -> & H).
  unfold match_at in H. simpl in H.
  apply run_sound in H as (t & g & rest' & D & -> & H).
  rewrite app_nil_r in H. injection H as <-.
  exists pre, t, rest', g. auto.
Qed.

Lemma derives_lit L t i g : derives (lit L) t i g -> t = L /\ g = [].
Proof.
  revert t i g. induction L as [|c L IH]; intros t i g D; simpl in D.
  - inversion D; auto.
  - inversion D as [| | |? ? t1 t2 ? g1 g2 D1 D2| | | |]; subst.
    inversion D1; subst. apply IH in D2 as [-> ->]. auto.
Qed.

Lemma derives_star lazy p t i g :
  derives (Star lazy p) t i g -> forallb p t = true /\ g = [].
Proof. intros D. inversion D; auto. Qed.

Lemma derives_seq r1 r2 t i g :
  derives (Seq r1 r2) t i g ->
  exists t1 t2 g1 g2, t = t1 ++ t2 /\ g = g2 ++ g1 /\
    derives r1 t1 i g1 /\ derives r2 t2 (i + length t1) g2.
Proof. intros D. inversion D; subst. eauto 10. Qed.

Lemma derives_group j r t i g :
  derives (Group j r) t i g ->
  exists g', g = (j, (i, i + length t)) :: g' /\ derives r t i g'.
Proof. intros D. inversion D; subst. eauto. Qed.

Lemma derives_eps t i g : derives Eps t i g -> t = [] /\ g = [].
Proof. intros D. inversion D; auto. Qed.

End Matcher.

(** *** Patterns without a choice: literals and [[c]{n}] *)

Section Deterministic.

Implicit Types (r : regex) (k : cont) (s t : text) (g : captures).

Lemma starts_with_app_l (a b s : text) :
  starts_with (a ++ b) s = starts_with a s && starts_with b (drop (length a) s).
Proof.
  revert s; induction a as [|x a IH]; intros s; simpl.
  - reflexivity.
  - destruct s as [|y s]; [reflexivity|]. simpl.
    rewrite IH, andb_assoc. reflexivity.
Qed.

Lemma run_lit L k s i g :
  run (lit L) k s i g =
  if starts_with L s then k (drop (length L) s) (i + length L) g else None.
Proof.
  revert s i; induction L as [|c L IH]; intros s i; simpl.
  - rewrite Nat.add_0_r. reflexivity.
  - destruct s as [|a s]; [reflexivity|].
    destruct (Ascii.eqb a c); simpl; [|reflexivity].
    rewrite IH. replace (S i + length L) with (i + S (length L)) by lia.
    reflexivity.
Qed.

Lemma run_rep_cls n p k s i g :
  run (Rep n (Cls p)) k s i g =
  if (n <=? length s) && forallb p (take n s)
  then k (drop n s) (i + n) g else None.
Proof.
  simpl. revert s i; induction n as [|n IH]; intros s i.
  - simpl. rewrite Nat.add_0_r. reflexivity.
  - destruct s as [|a s]; [reflexivity|]. simpl.
    destruct (p a); simpl; [|rewrite andb_false_r; reflexivity].
    rewrite IH. replace (S i + n) with (i + S n) by lia. reflexivity.
Qed.

Lemma find_first_some test s j :
  find_first test s = Some j ->
  test (drop j s) = true /\ j <= length s /\
  forall j', j' < j -> test (drop j' s) = false.
Proof.
  revert j; induction s as [|a s IH]; intros j H; simpl in H.
  - destruct (test []) eqn:E; [|discriminate]. injection H as <-.
    repeat split; [exact E | simpl; lia | intros; lia].
  - destruct (test (a :: s)) eqn:E.
    + injection H as <-. repeat split; [exact E | simpl; lia | intros; lia].
    + destruct (find_first test s) as [j0|] eqn:F; [|discriminate].
      injection H as <-. destruct (IH j0 eq_refl) as (H1 & H2 & H3).
      repeat split; [exact H1 | simpl; lia |].
      intros [|j'] Hj; [exact E | apply H3; lia].
Qed.

Lemma find_first_none test s :
  find_first test s = None -> forall j, j <= length s -> test (drop j s) = false.
Proof.
  induction s as [|a s IH]; intros H j Hj; simpl in H.
  - destruct (test []) eqn:E; [discriminate|].
    destruct j; [exact E | simpl in Hj; lia].
  - destruct (test (a :: s)) eqn:E; [discriminate|].
    destruct (find_first test s) eqn:F; [discriminate|].
    destruct j as [|j]; [exact E | apply IH; [reflexivity | simpl in Hj; lia]].
Qed.

(** [re.search] with a pattern that matches at an offset exactly when
    [test] holds of the text from there on. *)
Lemma search_from_deterministic r (test : text -> bool)
    (mk : nat -> text -> match_obj) :
  (forall s i, match_at r s i = if test s then Some (mk i s) else None) ->
  forall s i,
    search_from r s i =
    match find_first test s with
    | Some j => Some (mk (i + j) (drop j s))
    | None => None
    end.
Proof.
  intros Hr. induction s as [|a s IH]; intros i; simpl; rewrite Hr.
  - destruct (test []); [rewrite Nat.add_0_r|]; reflexivity.
  - destruct (test (a :: s)); [rewrite Nat.add_0_r; reflexivity|].
    rewrite IH. destruct (find_first test s) as [j|]; simpl; [|reflexivity].
    do 2 f_equal. lia.
Qed.

(** A literal pattern. *)
Lemma match_at_lit L s i :
  match_at (lit L) s i =
  if starts_with L s then Some (MatchObj i (i + length L) []) else None.
Proof. unfold match_at. rewrite run_lit. reflexivity. Qed.

Lemma search_lit L s :
  search (lit L) s =
  match find_first (starts_with L) s with
  | Some j => Some (MatchObj j (j + length L) [])
  | None => None
  end.
Proof.
  unfold search.
  rewrite (search_from_deterministic (lit L) (starts_with L)
             (fun i _ => MatchObj i (i + length L) [])).
  - reflexivity.
  - intros. apply match_at_lit.
Qed.

(** A literal is found exactly when it occurs, and then at its first
    occurrence: the text is [pre ++ L ++ rest] and the match ends after
    [L]. *)
Lemma search_lit_some L s m :
  search (lit L) s = Some m ->
  exists pre rest,
    s = pre ++ L ++ rest /\ m_start m = length pre /\
    m_end m = length pre + length L /\
    forall j, j < length pre -> starts_with L (drop j s) = false.
Proof.
  rewrite search_lit. destruct (find_first (starts_with L) s) as [j|] eqn:F;
    [|discriminate].
  intros [= <-]. apply find_first_some in F as (H1 & H2 & H3).
  apply starts_with_drop in H1.
  exists (take j s), (drop (length L) (drop j s)).
  rewrite length_take, Nat.min_l by lia. simpl.
  repeat split; [|exact H3].
  rewrite <- H1, take_drop. reflexivity.
Qed.

Lemma search_lit_none L s :
  search (lit L) s = None -> contains L s = false.
Proof.
  rewrite search_lit. destruct (find_first (starts_with L) s) eqn:F;
    [discriminate|]. intros _.
  induction s as [|a s IH]; simpl in *.
  - destruct (starts_with L []); [discriminate | reflexivity].
  - destruct (starts_with L (a :: s)); [discriminate|]. simpl.
    apply IH. destruct (find_first (starts_with L) s); [discriminate|].
    reflexivity.
Qed.

End Deterministic.

(* ------------------------------------------------------------------ *)
(** ** Lemmas on identifiers *)

Section UuidLemmas.

Local Open Scope Z_scope.

Lemma lt_pow2_of_bits (a n : Z) :
  0 <= n -> 0 <= a ->
  (forall m, n <= m -> Z.testbit a m = false) ->
  a < 2 ^ n.
Proof.
  intros Hn Ha Hbits.
  assert (E : a mod 2 ^ n = a).
  { apply Z.bits_inj'. intros m Hm.
    destruct (Z_lt_le_dec m n) as [Hlt|Hge].
    - apply Z.mod_pow2_bits_low. lia.
    - rewrite Z.mod_pow2_bits_high by lia. symmetry. apply Hbits. lia. }
  rewrite <- E. apply Z.mod_pos_bound. apply Z.pow_pos_nonneg; lia.
Qed.

(** The number of a version-4 UUID fits 128 bits, so ['%032x'] prints
    exactly 32 digits. *)
Lemma uuid4_int_range (random : Z) : 0 <= uuid4_int random < 2 ^ 128.
Proof.
  unfold uuid4_int.
  assert (Hx : 0 <= random mod 2 ^ 128 < 2 ^ 128)
    by (apply Z.mod_pos_bound; reflexivity).
  generalize dependent (random mod 2 ^ 128). intros x Hx.
  assert (Hnn : 0 <= Z.lor (Z.land (Z.lor (Z.land x (Z.lnot (Z.shiftl 0xc000 48)))
                     (Z.shiftl 0x8000 48)) (Z.lnot (Z.shiftl 0xf000 64)))
                     (Z.shiftl 4 76)).
  { rewrite Z.lor_nonneg, Z.land_nonneg, Z.lor_nonneg, Z.land_nonneg.
    split; [left; split; [left; exact (proj1 Hx)|] |]; vm_compute; discriminate. }
  split; [exact Hnn|].
  apply lt_pow2_of_bits; [lia | exact Hnn |].
  intros m Hm.
  rewrite Z.lor_spec, Z.land_spec, Z.lor_spec, Z.land_spec.
  assert (Hxm : Z.testbit x m = false).
  { destruct (Z.eq_dec x 0) as [->|Hne]; [apply Z.bits_0|].
    assert (Z.log2 x < 128) by (apply Z.log2_lt_pow2; lia).
    apply Z.bits_above_log2; lia. }
  assert (H1 : Z.testbit (Z.shiftl 0x8000 48) m = false).
  { apply Z.bits_above_log2; [vm_compute; discriminate|].
    eapply Z.lt_le_trans; [|exact Hm]. vm_compute. reflexivity. }
  assert (H2 : Z.testbit (Z.shiftl 4 76) m = false).
  { apply Z.bits_above_log2; [vm_compute; discriminate|].
    eapply Z.lt_le_trans; [|exact Hm]. vm_compute. reflexivity. }
  rewrite Hxm, H1, H2. reflexivity.
Qed.

Lemma hex_digits_length (k : nat) (n : Z) : length (hex_digits k n) = k.
Proof.
  revert n; induction k as [|k IH]; intros n; simpl; [reflexivity|].
  rewrite length_app, IH. simpl. lia.
Qed.

Lemma hex_char_lower (d : Z) : 0 <= d < 16 -> hex_lower (hex_char d) = true.
Proof.
  intros Hd. unfold hex_char.
  assert (H : (Z.to_nat d < 16)%nat) by lia.
  revert H. generalize (Z.to_nat d). intros n H.
  do 16 (destruct n as [|n]; [reflexivity|]). lia.
Qed.

Lemma hex_digits_lower (k : nat) (n : Z) :
  forallb hex_lower (hex_digits k n) = true.
Proof.
  revert n; induction k as [|k IH]; intros n; simpl; [reflexivity|].
  rewrite forallb_app, IH. simpl.
  rewrite hex_char_lower; [reflexivity|]. apply Z.mod_pos_bound. lia.
Qed.

Lemma upper_char_hex (c : ascii) :
  hex_lower c = true -> hex_upper (upper_char c) = true.
Proof.
  destruct c as [[] [] [] [] [] [] [] []]; vm_compute; congruence.
Qed.

Lemma hex_upper_alnum (c : ascii) : hex_upper c = true -> is_alnum c = true.
Proof.
  destruct c as [[] [] [] [] [] [] [] []]; vm_compute; congruence.
Qed.

Lemma forallb_take {A} (p : A -> bool) (n : nat) (l : list A) :
  forallb p l = true -> forallb p (take n l) = true.
Proof.
  revert n; induction l as [|a l IH]; intros [|n]; simpl; try reflexivity.
  rewrite !andb_true_iff. intros [-> H]. auto.
Qed.

(** Every identifier made by [generate_uuid] has 24 characters of
    [[0-9A-F]]. *)
Lemma drawn_uuid_format (e : nat -> Z) (k : nat) :
  length (drawn_uuid e k) = 24%nat /\
  forallb hex_upper (drawn_uuid e k) = true.
Proof.
  unfold drawn_uuid, upper, hex. split.
  - rewrite length_map, length_take, hex_digits_length. reflexivity.
  - assert (H := forallb_take hex_lower 24 _ (hex_digits_lower 32 (uuid4_int (e k)))).
    revert H. generalize (take 24 (hex_digits 32 (uuid4_int (e k)))).
    intros l. induction l as [|a l IH]; simpl; [reflexivity|].
    rewrite !andb_true_iff. intros [Ha Hl].
    split; [apply upper_char_hex; exact Ha | auto].
Qed.

End UuidLemmas.

(* ------------------------------------------------------------------ *)
(** ** The run of the editor, step by step *)

Section Run.

Implicit Types (w : world) (c : text) (fs : list file_to_add).

Lemma jobs_length e k fs : length (jobs e k fs) = length fs.
Proof.
  revert k; induction fs as [|f fs IH]; intros k; simpl; [reflexivity|].
  rewrite IH. reflexivity.
Qed.


(** The loops with a running [insert_pos] put the whole block in at the
    first position. *)
Lemma for_entries_splice entries c p :
  for_entries entries c p = splice p (section_block entries) c.
Proof.
  revert c p; induction entries as [|[[u n] ref] entries IH]; intros c p.
  - simpl. unfold section_block. simpl. rewrite splice_nil. reflexivity.
  - cbn [for_entries]. rewrite IH.
    replace (take p c ++ LF ++ ref ++ drop p c) with (splice p (LF ++ ref) c)
      by (unfold splice; rewrite <- app_assoc; reflexivity).
    rewrite splice_splice. reflexivity.
Qed.

Lemma for_sources_block entries acc :
  for_sources entries acc = acc ++ sources_block entries.
Proof.
  revert acc; induction entries as [|[u n] entries IH]; intros acc; simpl.
  - unfold sources_block. simpl. rewrite app_nil_r. reflexivity.
  - rewrite IH. unfold sources_block. simpl. rewrite <- app_assoc.
    reflexivity.
Qed.

Lemma generate_uuid_run w :
  generate_uuid w =
  (Ret (drawn_uuid (entropy w) (drawn w)),
   World (files w) (entropy w) (S (drawn w)) (events w)).
Proof. reflexivity. Qed.

(** One turn of the first loop. *)
Lemma for_files_cons f fs l w :
  for_files (f :: fs) l w =
  let j := (f, (drawn_uuid (entropy w) (drawn w),
                drawn_uuid (entropy w) (S (drawn w)))) in
  for_files fs
    (Locals (add_child (content l) j)
            (file_references l ++ [file_reference_of j])
            (build_file_entries l ++ [build_file_of j])
            (sources_build_phase_entries l ++ [sources_of j]))
    (World (files w) (entropy w) (S (S (drawn w)))
           (events w ++ [Printed (child_line (content l) j)])).
Proof.
  destruct f as [[filename filepath] group_uuid].
  cbn [for_files]. unfold bind at 1. rewrite generate_uuid_run.
  unfold bind at 1. rewrite generate_uuid_run.
  cbv zeta. unfold add_child, child_line, group_uuid_of, filename_of,
    file_reference_of, build_file_of, sources_of, file_ref_uuid_of,
    build_file_uuid_of, filename_of.
  cbn [fst snd entropy drawn files events].
  destruct (search (group_pattern group_uuid) (content l)) as [m|];
    unfold bind, print; reflexivity.
Qed.

(** The first loop: it never raises, uses two draws per file, prints one
    line per file and extends the three lists by one entry per file. *)
Lemma for_files_run fs : forall l w,
  let js := jobs (entropy w) (drawn w) fs in
  for_files fs l w =
  (Ret (Locals (children_pass js (content l))
               (file_references l ++ map file_reference_of js)
               (build_file_entries l ++ map build_file_of js)
               (sources_build_phase_entries l ++ map sources_of js)),
   World (files w) (entropy w) (drawn w + 2 * length fs)
         (events w ++ map Printed (children_lines js (content l)))).
Proof.
  induction fs as [|f fs IH]; intros l w js.
  - simpl. unfold ret. destruct l, w; simpl.
    rewrite !app_nil_r, Nat.add_0_r. reflexivity.
  - subst js. rewrite for_files_cons. cbv zeta. rewrite IH.
    cbn [content file_references build_file_entries
         sources_build_phase_entries files entropy drawn events].
    cbn [jobs children_pass children_lines map length].
    rewrite <- !app_assoc. cbn [app].
    do 2 f_equal. lia.
Qed.

(** The whole editor on a file that is there: either the main group is
    not found, one line is printed and nothing else happens; or the four
    steps run in order and the file is rewritten. *)
Lemma add_files_run path fs d w c :
  files w path = Some c ->
  add_files_to_xcode_project path fs d w =
  match search main_sources_pattern c with
  | None =>
      (Ret false, printed w [T "ERROR: Could not find main PetSafety group"])
  | Some _ =>
      let js := jobs (entropy w) (drawn w) fs in
      (Ret true,
       rewritten w path (after_sources js c) (report js c) (2 * length fs))
  end.
Proof.
  intros Hc. unfold add_files_to_xcode_project.
  unfold bind at 1. unfold read_text. rewrite Hc.
  destruct (search main_sources_pattern c) as [m0|]; [|reflexivity].
  unfold bind at 1. rewrite for_files_run.
  cbn [content file_references build_file_entries
       sources_build_phase_entries app].
  set (js := jobs (entropy w) (drawn w) fs).
  unfold rewritten, report, after_sources, after_build_files,
    after_file_refs, after_children, sources_step, sources_line,
    section_step, section_line.
  rewrite !length_map, !for_sources_block. cbn [app].
  set (c1 := children_pass js c).
  unfold bind, print, ret, write_text.
  destruct (search file_ref_section_pattern c1) as [m1|];
    cbv beta iota; rewrite ?for_entries_splice;
    cbn [files entropy drawn events];
    match goal with
    | |- context [search build_file_section_pattern ?c2] =>
        destruct (search build_file_section_pattern c2) as [m2|]
    end;
    cbv beta iota; rewrite ?for_entries_splice;
    cbn [files entropy drawn events];
    match goal with
    | |- context [search sources_phase_pattern ?c3] =>
        destruct (search sources_phase_pattern c3) as [m3|]
    end;
    cbv beta iota; cbn [files entropy drawn events];
    rewrite ?map_app; cbn [map]; rewrite <- ?app_assoc; cbn [app];
    reflexivity.
Qed.

Lemma found_true r c : found r c = true -> exists m, search r c = Some m.
Proof. unfold found. destruct (search r c); [eauto | discriminate]. Qed.

Lemma found_false r c : found r c = false -> search r c = None.
Proof. unfold found. destruct (search r c); [discriminate | reflexivity]. Qed.

(** A run that finds the main group. *)
Lemma add_files_found path fs d w c :
  files w path = Some c ->
  found main_sources_pattern c = true ->
  add_files_to_xcode_project path fs d w =
  (Ret true,
   rewritten w path (after_sources (run_jobs w fs) c)
             (report (run_jobs w fs) c) (2 * length fs)).
Proof.
  intros Hc Hm. rewrite (add_files_run _ _ _ _ _ Hc).
  apply found_true in Hm as [m ->]. reflexivity.
Qed.

(** A run that does not. *)
Lemma add_files_not_found path fs d w c :
  files w path = Some c ->
  found main_sources_pattern c = false ->
  add_files_to_xcode_project path fs d w =
  (Ret false, printed w [T "ERROR: Could not find main PetSafety group"]).
Proof.
  intros Hc Hm. rewrite (add_files_run _ _ _ _ _ Hc).
  apply found_false in Hm as ->. reflexivity.
Qed.

End Run.

(* ------------------------------------------------------------------ *)
(** ** find_group_uuid *)

Section FindGroup.

Lemma run_seq r1 r2 k s i g :
  run (Seq r1 r2) k s i g = run r1 (run r2 k) s i g.
Proof. reflexivity. Qed.

Lemma run_group j r k s i g :
  run (Group j r) k s i g =
  run r (fun s' i' g' => k s' i' ((j, (i, i')) :: g')) s i g.
Proof. reflexivity. Qed.

Lemma match_at_find (group_name s : text) (i : nat) :
  match_at (find_group_pattern group_name) s i =
  if id_comment_here group_name s
  then Some (MatchObj i
               (i + 24 + length (T " /* ") + length group_name
                + length (T " */"))
               [(1, (i, i + 24))])
  else None.
Proof.
  unfold match_at, find_group_pattern, id_comment_here. cbn [seqs].
  rewrite run_seq, run_group, run_rep_cls.
  destruct ((24 <=? length s) && forallb hex_upper (take 24 s));
    [|reflexivity].
  cbv beta. rewrite !starts_with_app_l, !drop_drop.
  rewrite run_seq, run_lit.
  destruct (starts_with (T " /* ") (drop 24 s)); [|reflexivity].
  rewrite run_seq, run_lit, drop_drop.
  destruct (starts_with group_name (drop (24 + length (T " /* ")) s));
    [|reflexivity].
  rewrite run_seq, run_lit, drop_drop.
  destruct (starts_with (T " */")
              (drop (24 + length (T " /* ") + length group_name) s));
    reflexivity.
Qed.

(** [find_group_uuid] takes the 24 characters at the first offset where
    an identifier and the comment of the name stand. *)
Lemma find_group_uuid_first (content group_name : text) :
  find_group_uuid content group_name =
  match find_first (id_comment_here group_name) content with
  | Some j => Some (take 24 (drop j content))
  | None => None
  end.
Proof.
  unfold find_group_uuid, search.
  rewrite (search_from_deterministic _ (id_comment_here group_name)
             (fun i _ => MatchObj i
                (i + 24 + length (T " /* ") + length group_name
                 + length (T " */")) [(1, (i, i + 24))])).
  - destruct (find_first (id_comment_here group_name) content) as [j|];
      [|reflexivity].
    unfold group, group_span, slice. simpl.
    replace (j + 24 - j) with 24 by lia. reflexivity.
  - intros. apply match_at_find.
Qed.

Lemma id_comment_here_id (group_name s : text) :
  id_comment_here group_name s = true ->
  length (take 24 s) = 24 /\ forallb hex_upper (take 24 s) = true.
Proof.
  unfold id_comment_here. rewrite !andb_true_iff, Nat.leb_le.
  intros [[Hl Hh] _]. rewrite length_take. split; [lia | exact Hh].
Qed.

Lemma find_group_uuid_format (content group_name u : text) :
  find_group_uuid content group_name = Some u ->
  length u = 24 /\ forallb hex_upper u = true.
Proof.
  rewrite find_group_uuid_first.
  destruct (find_first (id_comment_here group_name) content) as [j|] eqn:F;
    [|discriminate].
  intros [= <-]. apply find_first_some in F as [F _].
  eapply id_comment_here_id. exact F.
Qed.

(** The identifiers [find_group_uuid] returns stand for themselves in
    [group_pattern]. *)
Lemma find_group_uuid_plain (content group_name u : text) :
  find_group_uuid content group_name = Some u -> plain_id u = true.
Proof.
  intros H. apply find_group_uuid_format in H as [_ H].
  unfold plain_id. induction u as [|a u IH]; simpl in *; [reflexivity|].
  apply andb_true_iff in H as [Ha Hu].
  rewrite (hex_upper_alnum _ Ha), (IH Hu). reflexivity.
Qed.

End FindGroup.

(** C7. [find_group_uuid] returns the 24-character identifier of
    [[A-F0-9]] that stands at the first offset of the text where such an
    identifier is followed by the comment [/* group_name */]; it returns
    [None] exactly when no offset of the text is like that.  It is a
    function of the text and the name alone (it has no effect and leaves
    the text as it is). *)
Theorem find_group_uuid_first_occurrence (content group_name : text) :
  match find_group_uuid content group_name with
  | Some u =>
      exists i,
        id_comment_here group_name (drop i content) = true /\
        (forall j, j < i -> id_comment_here group_name (drop j content) = false) /\
        u = take 24 (drop i content) /\
        length u = 24 /\ forallb hex_upper u = true
  | None =>
      forall i, id_comment_here group_name (drop i content) = false
  end.
Proof.
  rewrite find_group_uuid_first.
  destruct (find_first (id_comment_here group_name) content) as [j|] eqn:F.
  - apply find_first_some in F as (H1 & H2 & H3).
    exists j. destruct (id_comment_here_id _ _ H1) as [H4 H5]. auto.
  - intros i. destruct (decide (i <= length content)) as [Hi|Hi].
    + eapply find_first_none; eassumption.
    + rewrite drop_ge by lia. reflexivity.
Qed.

(* ------------------------------------------------------------------ *)
(** ** generate_uuid *)

(** C8. Every call of [generate_uuid] returns (it never raises) a string
    of exactly 24 characters, each an uppercase hexadecimal digit
    [[0-9A-F]]. *)
Theorem generate_uuid_format (w : world) :
  exists u w',
    generate_uuid w = (Ret u, w') /\
    length u = 24 /\ forallb hex_upper u = true.
Proof.
  rewrite generate_uuid_run.
  destruct (drawn_uuid_format (entropy w) (drawn w)) as [Hl Hh].
  eauto.
Qed.

(* ------------------------------------------------------------------ *)
(** ** What the editor writes *)

Section Effects.

Implicit Types (w : world) (c : text) (fs : list file_to_add).

Lemma text_eqb_refl (p : text) : text_eqb p p = true.
Proof. unfold text_eqb. apply bool_decide_eq_true. reflexivity. Qed.

Lemma writes_printed w lines : writes (printed w lines) = writes w.
Proof.
  unfold writes, printed. simpl. rewrite omap_app.
  induction lines as [|l lines IH]; simpl; [apply app_nil_r | exact IH].
Qed.

Lemma writes_rewritten w path data lines n :
  writes (rewritten w path data lines n) = writes w ++ [(path, data)].
Proof.
  unfold writes, rewritten. simpl. rewrite !omap_app. f_equal.
  induction lines as [|l lines IH]; simpl; [reflexivity | exact IH].
Qed.

Lemma stdout_printed w lines : stdout (printed w lines) = stdout w ++ lines.
Proof.
  unfold stdout, printed. simpl. rewrite omap_app. f_equal.
  induction lines as [|l lines IH]; simpl; [reflexivity | f_equal; exact IH].
Qed.

Lemma stdout_rewritten w path data lines n :
  stdout (rewritten w path data lines n) = stdout w ++ lines.
Proof.
  unfold stdout, rewritten. simpl. rewrite !omap_app. simpl.
  rewrite app_nil_r. f_equal.
  induction lines as [|l lines IH]; simpl; [reflexivity | f_equal; exact IH].
Qed.

Lemma files_rewritten w path data lines n :
  files (rewritten w path data lines n) path = Some data.
Proof. simpl. rewrite text_eqb_refl. reflexivity. Qed.

(** When no group pattern matches, the first loop leaves the text alone. *)
Lemma children_pass_none e k fs c :
  Forall (fun f => search (group_pattern (group_uuid_of f)) c = None) fs ->
  children_pass (jobs e k fs) c = c.
Proof.
  revert k; induction fs as [|f fs IH]; intros k H; simpl; [reflexivity|].
  inversion H as [|? ? Hf Hfs]; subst.
  unfold add_child. cbn [fst]. rewrite Hf. apply IH. exact Hfs.
Qed.

Lemma after_sources_none e k fs c :
  nothing_matches fs c -> after_sources (jobs e k fs) c = c.
Proof.
  intros (Hg & Hr & Hb & Hs).
  unfold after_sources, after_build_files, after_file_refs, after_children,
    sources_step, section_step.
  rewrite children_pass_none by exact Hg. rewrite Hr, Hb, Hs. reflexivity.
Qed.

Lemma sublist_children_pass js c : sublist c (children_pass js c).
Proof.
  revert c; induction js as [|j js IH]; intros c; simpl; [reflexivity|].
  etrans; [|apply IH]. unfold add_child.
  destruct (search _ c); [apply sublist_slice_edit | reflexivity].
Qed.

Lemma sublist_section_step header entries c :
  sublist c (section_step header entries c).
Proof.
  unfold section_step.
  destruct (search header c); [apply sublist_splice | reflexivity].
Qed.

Lemma sublist_sources_step entries c : sublist c (sources_step entries c).
Proof.
  unfold sources_step.
  destruct (search _ c); [apply sublist_slice_edit | reflexivity].
Qed.

Lemma sublist_after_sources js c : sublist c (after_sources js c).
Proof.
  unfold after_sources, after_build_files, after_file_refs, after_children.
  etrans; [apply (sublist_children_pass js)|].
  etrans; [apply sublist_section_step|].
  etrans; [apply sublist_section_step|].
  apply sublist_sources_step.
Qed.

End Effects.

(** C9. On a manifest that is there and for files whose group
    identifiers are alphanumeric (see [group_pattern]),
    [add_files_to_xcode_project] writes the file back if and only if the
    main PetSafety group pattern is found.  When it returns [False] the pattern was not found, no write
    was made and the file system is as before.  When it returns [True]
    the pattern was found and exactly one write, of the manifest's path,
    was made; the write is made even when no later step finds its place,
    and the data written is then the text that was read. *)
Theorem write_back_iff_main_group (path : text) (fs : list file_to_add)
    (d : list (text * text)) (w : world) (c : text) :
  files w path = Some c ->
  plain_files fs = true ->
  exists ok w',
    add_files_to_xcode_project path fs d w = (Ret ok, w') /\
    if ok then
      search main_sources_pattern c <> None /\
      exists data,
        writes w' = writes w ++ [(path, data)] /\
        files w' path = Some data /\
        (nothing_matches fs c -> data = c)
    else
      search main_sources_pattern c = None /\
      writes w' = writes w /\
      files w' = files w.
Proof.
  intros Hc _. rewrite (add_files_run _ _ _ _ _ Hc).
  destruct (search main_sources_pattern c) as [m0|] eqn:Hmain.
  - eexists true, _. split; [reflexivity|]. split; [discriminate|].
    eexists. split; [apply writes_rewritten|].
    split; [apply files_rewritten|]. apply after_sources_none.
  - eexists false, _. split; [reflexivity|]. split; [reflexivity|].
    split; [apply writes_printed | reflexivity].
Qed.

(** C10. Every edit of [add_files_to_xcode_project] is an insertion: on
    every path of a run, whatever steps find their place, the text read
    from the manifest is a subsequence of the text the manifest holds
    afterwards (for files whose group identifiers are alphanumeric, see
    [group_pattern]). *)
Theorem edits_only_insert (path : text) (fs : list file_to_add)
    (d : list (text * text)) (w : world) (c : text) :
  files w path = Some c ->
  plain_files fs = true ->
  exists ok w' out,
    add_files_to_xcode_project path fs d w = (Ret ok, w') /\
    files w' path = Some out /\
    sublist c out.
Proof.
  intros Hc _. rewrite (add_files_run _ _ _ _ _ Hc).
  destruct (search main_sources_pattern c) as [m0|].
  - eexists true, _, _. split; [reflexivity|].
    split; [apply files_rewritten | apply sublist_after_sources].
  - eexists false, _, c. split; [reflexivity|].
    split; [exact Hc | reflexivity].
Qed.

(* ------------------------------------------------------------------ *)
(** ** main *)

Section Main.


End Main.


(* ------------------------------------------------------------------ *)
(** ** Where the edits go *)

Ltac invert_derives :=
  repeat match goal with
  | H : derives (seqs _) _ _ _ |- _ => cbn [seqs] in H
  | H : derives (Seq _ _) _ _ _ |- _ =>
      apply derives_seq in H as (? & ? & ? & ? & -> & -> & ? & ?)
  | H : derives (Group _ _) _ _ _ |- _ =>
      apply derives_group in H as (? & -> & ?)
  | H : derives (lit _) _ _ _ |- _ => apply derives_lit in H as [-> ->]
  | H : derives (Star _ _) _ _ _ |- _ => apply derives_star in H as [? ->]
  | H : derives Eps _ _ _ |- _ => apply derives_eps in H as [-> ->]
  end.

Section Shapes.

Implicit Types (c : text) (m : match_obj).

(** A match of the group pattern: group 2 is what stands between a
    [children = (] that follows the identifier and a [);]. *)
Lemma group_match_shape group_uuid c m :
  search (group_pattern group_uuid) c = Some m ->
  exists before kids rest,
    c = before ++ T "children = (" ++ kids ++ T ");" ++ rest /\
    group_span m 2 =
    (length (before ++ T "children = ("),
     length (before ++ T "children = (") + length kids).
Proof.
  intros H. apply search_sound in H as (pre & t & rest & g & -> & D & ->).
  unfold group_pattern in D. invert_derives.
  match goal with
  | |- context [pre ++ (((?a ++ ?b ++ ?x ++ ?d ++ ?y ++ ?o ++ []) ++
                         ?kids ++ (?cl ++ ?z ++ ?isa ++ []) ++ []) ++ rest)] =>
      exists (pre ++ a ++ b ++ x ++ d ++ y), kids, (z ++ isa ++ rest)
  end.
  split.
  - rewrite !app_nil_r, <- !app_assoc. reflexivity.
  - unfold group_span. cbn [m_groups app capture Nat.eqb].
    rewrite !app_nil_r. f_equal; rewrite !length_app; lia.
Qed.

(** The same for the Sources build phase pattern and [files = (]. *)
Lemma sources_match_shape c m :
  search sources_phase_pattern c = Some m ->
  exists before files rest,
    c = before ++ T "files = (" ++ files ++ T ");" ++ rest /\
    group_span m 2 =
    (length (before ++ T "files = ("),
     length (before ++ T "files = (") + length files).
Proof.
  intros H. apply search_sound in H as (pre & t & rest & g & -> & D & ->).
  unfold sources_phase_pattern in D. invert_derives.
  match goal with
  | |- context [pre ++ (((?a ++ ?x ++ ?o ++ []) ++
                         ?files ++ (?cl ++ ?z ++ ?isa ++ []) ++ []) ++ rest)] =>
      exists (pre ++ a ++ x), files, (z ++ isa ++ rest)
  end.
  split.
  - rewrite !app_nil_r, <- !app_assoc. reflexivity.
  - unfold group_span. cbn [m_groups app capture Nat.eqb].
    rewrite !app_nil_r. f_equal; rewrite !length_app; lia.
Qed.

(** The edit [c[:a] + (c[a:b] + t) + c[b:]] on [c = x ++ y ++ z] with
    [a = len x] and [b = len x + len y]. *)
Lemma slice_edit_app (x y z t : text) :
  take (length x) (x ++ y ++ z)
  ++ (slice (length x) (length x + length y) (x ++ y ++ z) ++ t)
  ++ drop (length x + length y) (x ++ y ++ z)
  = x ++ y ++ t ++ z.
Proof.
  rewrite slice_edit_splice by lia. unfold splice.
  rewrite !(app_assoc x y z), <- length_app.
  rewrite take_app_length, drop_app_length, <- app_assoc. reflexivity.
Qed.

Lemma add_child_found c j :
  found (group_pattern (group_uuid_of j.1)) c = true ->
  exists before kids rest,
    c = before ++ T "children = (" ++ kids ++ T ");" ++ rest /\
    add_child c j =
    before ++ T "children = (" ++ kids
    ++ new_child_entry (file_ref_uuid_of j) (filename_of j.1)
    ++ T ");" ++ rest.
Proof.
  unfold found, add_child.
  destruct (search (group_pattern (group_uuid_of j.1)) c) as [m|] eqn:Hs;
    [|discriminate].
  intros _. apply group_match_shape in Hs as (before & kids & rest & Hc & Hsp).
  exists before, kids, rest. split; [exact Hc|].
  unfold group. rewrite Hsp. cbn [fst snd]. rewrite Hc.
  rewrite (app_assoc before (T "children = (")).
  rewrite slice_edit_app. rewrite <- !app_assoc. reflexivity.
Qed.

Lemma children_pass_found js : forall c,
  groups_found js c = true -> children_inserted js c (children_pass js c).
Proof.
  induction js as [|j js IH]; intros c H; simpl in *.
  - constructor.
  - apply andb_true_iff in H as [Hj Hjs].
    destruct (add_child_found c j Hj) as (before & kids & rest & Hc & Ha).
    rewrite Hc at 1. constructor. rewrite <- Ha. apply IH. exact Hjs.
Qed.

Lemma children_lines_found js : forall c,
  groups_found js c = true -> children_lines js c = added_to_group_lines js.
Proof.
  induction js as [|j js IH]; intros c H; simpl in *; [reflexivity|].
  apply andb_true_iff in H as [Hj Hjs]. rewrite (IH _ Hjs).
  unfold child_line. unfold found in Hj.
  destruct (search (group_pattern (group_uuid_of j.1)) c);
    [reflexivity | discriminate].
Qed.

Lemma section_block_refs js :
  section_block (map file_reference_of js) = file_refs_block js.
Proof.
  unfold section_block, file_refs_block. rewrite map_map. reflexivity.
Qed.

Lemma section_block_builds js :
  section_block (map build_file_of js) = build_files_block js.
Proof.
  unfold section_block, build_files_block. rewrite map_map. reflexivity.
Qed.

Lemma sources_block_entries js :
  sources_block (map sources_of js) = sources_entries_block js.
Proof.
  unfold sources_block, sources_entries_block. rewrite map_map. reflexivity.
Qed.

(** A section step that finds its header puts the block right after the
    first occurrence of the header. *)
Lemma section_step_found header entries c :
  found (lit header) c = true ->
  inserted_after header (section_block entries) c
                 (section_step (lit header) entries c).
Proof.
  unfold found, section_step.
  destruct (search (lit header) c) as [m|] eqn:Hs; [|discriminate].
  intros _. apply search_lit_some in Hs as (pre & rest & Hc & _ & He & Hfirst).
  exists pre, rest. split; [exact Hc|]. split; [exact Hfirst|].
  rewrite He, Hc. unfold splice.
  rewrite !(app_assoc pre header rest), <- length_app.
  rewrite take_app_length, drop_app_length, <- !app_assoc.
  reflexivity.
Qed.

Lemma section_step_missing header entries c :
  found header c = false -> section_step header entries c = c.
Proof.
  unfold found, section_step. destruct (search header c); [discriminate|].
  reflexivity.
Qed.

Lemma sources_step_found entries c :
  found sources_phase_pattern c = true ->
  inserted_in_files (sources_block entries) c (sources_step entries c).
Proof.
  unfold found, sources_step.
  destruct (search sources_phase_pattern c) as [m|] eqn:Hs; [|discriminate].
  intros _. apply sources_match_shape in Hs as (before & fl & rest & Hc & Hsp).
  exists before, fl, rest. split; [exact Hc|].
  unfold group. rewrite Hsp. cbn [fst snd]. rewrite Hc.
  rewrite (app_assoc before (T "files = (")).
  rewrite slice_edit_app. rewrite <- !app_assoc. reflexivity.
Qed.

Lemma sources_step_missing entries c :
  found sources_phase_pattern c = false -> sources_step entries c = c.
Proof.
  unfold found, sources_step.
  destruct (search sources_phase_pattern c); [discriminate | reflexivity].
Qed.

(** The three section steps, when each finds its anchor. *)
Lemma steps_found js c :
  found file_ref_section_pattern (after_children js c) = true ->
  found build_file_section_pattern (after_file_refs js c) = true ->
  found sources_phase_pattern (after_build_files js c) = true ->
  inserted_after (T "/* Begin PBXFileReference section */")
    (file_refs_block js) (after_children js c) (after_file_refs js c) /\
  inserted_after (T "/* Begin PBXBuildFile section */")
    (build_files_block js) (after_file_refs js c) (after_build_files js c) /\
  inserted_in_files (sources_entries_block js)
    (after_build_files js c) (after_sources js c).
Proof.
  intros Href Hbuild Hsrc. split; [|split].
  - rewrite <- section_block_refs. apply section_step_found. exact Href.
  - rewrite <- section_block_builds. apply section_step_found. exact Hbuild.
  - rewrite <- sources_block_entries. apply sources_step_found. exact Hsrc.
Qed.

End Shapes.

(* ------------------------------------------------------------------ *)
(** ** One entry of each kind per file *)




(* ------------------------------------------------------------------ *)
(** ** When the Sources build phase is not found *)

Section Lines.

Lemma report_all_found js c :
  groups_found js c = true ->
  found file_ref_section_pattern (after_children js c) = true ->
  found build_file_section_pattern (after_file_refs js c) = true ->
  report js c =
  added_to_group_lines js
  ++ [T "✓ Added " ++ str_nat (length js) ++ T " file references";
      T "✓ Added " ++ str_nat (length js) ++ T " build file entries";
      sources_line (length js) (after_build_files js c)].
Proof.
  intros Hg Hr Hb. unfold report, section_line.
  rewrite (children_lines_found _ _ Hg).
  apply found_true in Hr as [m1 ->]. apply found_true in Hb as [m2 ->].
  reflexivity.
Qed.

End Lines.

(** C2, as the code has it.  When the main group is found, every file
    finds its group when its turn comes, the two section headers are
    found when their steps run and the Sources build phase pattern does
    not match the text as it stands after the build files went in, the
    run returns [True]; the file-reference and the build-file
    declarations are in the manifest, right after their headers; the
    fourth step changes nothing (no build-phase entry goes in); and the
    lines printed are one success line per file, the two success lines
    of the sections and the failure line of the build phase, the only
    failure reported. *)
Theorem sources_phase_not_found (path : text) (fs : list file_to_add)
    (d : list (text * text)) (w : world) (c : text) :
  files w path = Some c ->
  plain_files fs = true ->
  found main_sources_pattern c = true ->
  groups_found (run_jobs w fs) c = true ->
  found file_ref_section_pattern (after_children (run_jobs w fs) c) = true ->
  found build_file_section_pattern (after_file_refs (run_jobs w fs) c) = true ->
  found sources_phase_pattern (after_build_files (run_jobs w fs) c) = false ->
  exists w',
    add_files_to_xcode_project path fs d w = (Ret true, w') /\
    files w' path = Some (after_build_files (run_jobs w fs) c) /\
    inserted_after (T "/* Begin PBXFileReference section */")
      (file_refs_block (run_jobs w fs))
      (after_children (run_jobs w fs) c) (after_file_refs (run_jobs w fs) c) /\
    inserted_after (T "/* Begin PBXBuildFile section */")
      (build_files_block (run_jobs w fs))
      (after_file_refs (run_jobs w fs) c) (after_build_files (run_jobs w fs) c) /\
    stdout w' =
    stdout w ++ added_to_group_lines (run_jobs w fs)
    ++ [T "✓ Added " ++ str_nat (length fs) ++ T " file references";
        T "✓ Added " ++ str_nat (length fs) ++ T " build file entries";
        T "✗ Could not find Sources build phase"].
Proof.
  intros Hc _ Hmain Hg Href Hbuild Hsrc.
  eexists. split; [apply (add_files_found _ _ _ _ _ Hc Hmain)|].
  split; [|split; [|split]].
  - rewrite files_rewritten. f_equal. unfold after_sources.
    apply sources_step_missing. exact Hsrc.
  - rewrite <- section_block_refs. apply section_step_found. exact Href.
  - rewrite <- section_block_builds. apply section_step_found. exact Hbuild.
  - rewrite stdout_rewritten, (report_all_found _ _ Hg Href Hbuild).
    unfold sources_line. rewrite (found_false _ _ Hsrc).
    unfold run_jobs. rewrite jobs_length. reflexivity.
Qed.

(** C2 as stated fails: in the project below the main group and the
    group of the file are there (and so are the four group names) and
    the Sources build phase pattern does not match; the run returns
    [True] but declares neither a file reference nor a build file, for
    the project has neither section header. *)
Lemma no_section_header_no_declaration :
  found main_sources_pattern Samples.empty_project = true /\
  forallb (fun name => truthy (find_group_uuid Samples.empty_project name))
          required_groups = true /\
  groups_found (run_jobs (Samples.world_with project_file Samples.empty_project)
                         Samples.one_file)
               Samples.empty_project = true /\
  found sources_phase_pattern Samples.empty_project = false /\
  exists w' out,
    add_files_to_xcode_project project_file Samples.one_file []
      (Samples.world_with project_file Samples.empty_project)
    = (Ret true, w') /\
    files w' project_file = Some out /\
    contains (T "isa = PBXFileReference;") out = false /\
    contains (T "isa = PBXBuildFile;") out = false.
Proof.
  repeat (split; [vm_compute; reflexivity|]).
  eexists _, _. split; [|split; [|split]].
  - apply add_files_found; vm_compute; reflexivity.
  - apply files_rewritten.
  - vm_compute. reflexivity.
  - vm_compute. reflexivity.
Qed.

Lemma sources_phase_not_found_witness :
  files (Samples.world_with project_file Samples.one_target) project_file
  = Some Samples.one_target /\
  plain_files Samples.one_file = true /\
  found main_sources_pattern Samples.one_target = true /\
  groups_found
    (run_jobs (Samples.world_with project_file Samples.one_target)
              Samples.one_file)
    Samples.one_target = true /\
  found file_ref_section_pattern
    (after_children
       (run_jobs (Samples.world_with project_file Samples.one_target)
                 Samples.one_file)
       Samples.one_target) = true /\
  found build_file_section_pattern
    (after_file_refs
       (run_jobs (Samples.world_with project_file Samples.one_target)
                 Samples.one_file)
       Samples.one_target) = true /\
  found sources_phase_pattern
    (after_build_files
       (run_jobs (Samples.world_with project_file Samples.one_target)
                 Samples.one_file)
       Samples.one_target) = false /\
  exists w',
    add_files_to_xcode_project project_file Samples.one_file []
      (Samples.world_with project_file Samples.one_target)
    = (Ret true, w') /\
    stdout w' =
    [T "✓ Added NetworkMonitor.swift to group";
     T "✓ Added 1 file references";
     T "✓ Added 1 build file entries";
     T "✗ Could not find Sources build phase"].
Proof.
  do 7 (split; [vm_compute; reflexivity|]).
  unshelve epose proof
    (sources_phase_not_found project_file Samples.one_file []
       (Samples.world_with project_file Samples.one_target)
       Samples.one_target _ _ _ _ _ _ _)
    as (w' & Hrun & _ & _ & _ & Hout); [vm_compute; reflexivity ..|].
  exists w'. split; [exact Hrun|]. rewrite Hout. vm_compute. reflexivity.
Defined.

(* ------------------------------------------------------------------ *)
(** ** Running the tool twice *)

Section Twice.

Lemma inserted_in_files_length t c c' :
  inserted_in_files t c c' -> length c' = length c + length t.
Proof.
  intros (before & fl & rest & -> & ->). rewrite !length_app. lia.
Qed.


End Twice.




(* ------------------------------------------------------------------ *)
(** ** The identifiers of a file *)

Section Identifiers.




End Identifiers.




(* ------------------------------------------------------------------ *)
(** ** Which children list the entry goes to *)

(** C6, on a project in the layout Xcode writes.  The file is to go to
    the group Services, whose identifier it names; the first loop finds
    a match for that identifier and puts the child entry at the end of
    the children of Components, the group before the last one: the
    greedy [.*] of the pattern runs from the first mention of the
    identifier to the last group header after which the rest of the
    pattern still matches. *)
Theorem child_entry_lands_in_another_group :
  group_uuid_of Samples.network_monitor = T "1A0000000000000000000012" /\
  found (group_pattern (group_uuid_of Samples.network_monitor)) Samples.c0
  = true /\
  exists l' w',
    for_files Samples.one_file (Locals (Samples.manifest [] [] []) [] [] [])
      Samples.w0
    = (Ret l', w') /\
    content l'
    = Samples.manifest []
        (new_child_entry Samples.first_ref_uuid (T "NetworkMonitor.swift"))
        [].
Proof.
  split; [reflexivity|]. split; [vm_compute; reflexivity|].
  eexists _, _. split; [apply for_files_run|].
  vm_compute. reflexivity.
Qed.

(* ------------------------------------------------------------------ *)
(** ** Instances *)


Lemma write_back_iff_main_group_witness :
  files Samples.w0 project_file = Some Samples.c0 /\
  plain_files Samples.one_file = true /\
  exists ok w',
    add_files_to_xcode_project project_file Samples.one_file [] Samples.w0
    = (Ret ok, w') /\
    if ok then
      search main_sources_pattern Samples.c0 <> None /\
      exists data,
        writes w' = writes Samples.w0 ++ [(project_file, data)] /\
        files w' project_file = Some data /\
        (nothing_matches Samples.one_file Samples.c0 -> data = Samples.c0)
    else
      search main_sources_pattern Samples.c0 = None /\
      writes w' = writes Samples.w0 /\
      files w' = files Samples.w0.
Proof.
  do 2 (split; [vm_compute; reflexivity|]).
  apply (write_back_iff_main_group project_file Samples.one_file []
           Samples.w0 Samples.c0);
    vm_compute; reflexivity.
Defined.

Lemma edits_only_insert_witness :
  files Samples.w0 project_file = Some Samples.c0 /\
  plain_files Samples.one_file = true /\
  exists ok w' out,
    add_files_to_xcode_project project_file Samples.one_file [] Samples.w0
    = (Ret ok, w') /\
    files w' project_file = Some out /\
    sublist Samples.c0 out.
Proof.
  do 2 (split; [vm_compute; reflexivity|]).
  apply (edits_only_insert project_file Samples.one_file []
           Samples.w0 Samples.c0);
    vm_compute; reflexivity.
Defined.

(* ------------------------------------------------------------------ *)
(** ** Further properties of the editor *)

Section EditorEdges.

Implicit Types (w : world) (c : text) (fs : list file_to_add).

Lemma section_step_nil header c : section_step header [] c = c.
Proof.
  unfold section_step. destruct (search header c); [|reflexivity].
  apply splice_nil.
Qed.

Lemma sources_step_nil c : sources_step [] c = c.
Proof.
  destruct (found sources_phase_pattern c) eqn:Hf.
  - destruct (sources_step_found [] c Hf) as (before & fl & rest & Hc & Hs).
    rewrite Hs, Hc. reflexivity.
  - apply sources_step_missing. exact Hf.
Qed.

Lemma no_group_found_Forall fs c :
  no_group_found fs c = true ->
  Forall (fun f => search (group_pattern (group_uuid_of f)) c = None) fs.
Proof.
  unfold no_group_found. induction fs as [|f fs IH]; simpl; [constructor|].
  rewrite andb_true_iff, negb_true_iff. intros [Hf Hfs].
  constructor; [apply found_false; exact Hf | auto].
Qed.

Lemma children_lines_none e k fs c :
  no_group_found fs c = true ->
  children_lines (jobs e k fs) c = group_not_found_lines fs.
Proof.
  revert k; induction fs as [|f fs IH]; intros k H; simpl; [reflexivity|].
  simpl in H. apply andb_true_iff in H as [Hf Hfs].
  apply negb_true_iff, found_false in Hf.
  unfold child_line, add_child. cbn [fst]. rewrite Hf.
  rewrite (IH _ Hfs). reflexivity.
Qed.

Lemma run_jobs_length w fs : length (run_jobs w fs) = length fs.
Proof. apply jobs_length. Qed.

End EditorEdges.

(** X1. When the manifest is not there, the editor raises
    [FileNotFoundError] for its path at once and so does [main] for the
    project file: nothing is printed, no identifier is drawn and nothing
    is written. *)
Theorem missing_manifest_raises (path : text) (fs : list file_to_add)
    (d : list (text * text)) (w : world) :
  (files w path = None ->
   add_files_to_xcode_project path fs d w = (Raise (FileNotFoundError path), w))
  /\
  (files w project_file = None ->
   main w = (Raise (FileNotFoundError project_file), w)).
Proof.
  split; intros H.
  - unfold add_files_to_xcode_project, bind, read_text. rewrite H. reflexivity.
  - unfold main. unfold bind at 1. unfold read_text. rewrite H. reflexivity.
Qed.

(** X2. With an empty list of files and the main group found, the editor
    still returns [True] and rewrites the manifest, with the very text it
    read; it draws no identifier and prints a count of 0 for each step
    that finds its anchor. *)
Theorem empty_list_rewrites_same_text (path : text)
    (d : list (text * text)) (w : world) (c : text) :
  files w path = Some c ->
  found main_sources_pattern c = true ->
  exists w',
    add_files_to_xcode_project path [] d w = (Ret true, w') /\
    files w' path = Some c /\
    writes w' = writes w ++ [(path, c)] /\
    drawn w' = drawn w /\
    stdout w' =
    stdout w
    ++ section_line file_ref_section_pattern 0 (T " file references") c
    ++ section_line build_file_section_pattern 0 (T " build file entries") c
    ++ [sources_line 0 c].
Proof.
  intros Hc Hmain.
  assert (Hout : after_sources (run_jobs w []) c = c).
  { unfold after_sources, after_build_files, after_file_refs, after_children.
    simpl. rewrite !section_step_nil. apply sources_step_nil. }
  eexists. split; [apply (add_files_found _ _ _ _ _ Hc Hmain)|].
  rewrite files_rewritten, writes_rewritten, stdout_rewritten, Hout.
  split; [reflexivity|]. split; [reflexivity|].
  split; [simpl; lia|].
  unfold report, after_build_files, after_file_refs, after_children. simpl.
  rewrite !section_step_nil. reflexivity.
Qed.

(** X3. A file whose group is not found is not dropped.  When the main
    group is found and no file of the list finds its group, the first
    loop leaves the text as it was and prints one failure line per file,
    naming its group identifier and its name; the run goes on, returns
    [True], and the declarations of all the files still go in after the
    PBXFileReference header when that header is in the text. *)
Theorem files_without_group_are_still_declared (path : text)
    (fs : list file_to_add) (d : list (text * text)) (w : world) (c : text) :
  files w path = Some c ->
  plain_files fs = true ->
  found main_sources_pattern c = true ->
  no_group_found fs c = true ->
  exists w',
    add_files_to_xcode_project path fs d w = (Ret true, w') /\
    after_children (run_jobs w fs) c = c /\
    files w' path = Some (after_sources (run_jobs w fs) c) /\
    stdout w' =
    stdout w ++ group_not_found_lines fs
    ++ section_line file_ref_section_pattern (length fs)
         (T " file references") c
    ++ section_line build_file_section_pattern (length fs)
         (T " build file entries") (after_file_refs (run_jobs w fs) c)
    ++ [sources_line (length fs) (after_build_files (run_jobs w fs) c)] /\
    (found file_ref_section_pattern c = true ->
     inserted_after (T "/* Begin PBXFileReference section */")
       (file_refs_block (run_jobs w fs)) c (after_file_refs (run_jobs w fs) c)).
Proof.
  intros Hc _ Hmain Hnone.
  assert (Hch : after_children (run_jobs w fs) c = c).
  { apply children_pass_none, no_group_found_Forall. exact Hnone. }
  eexists. split; [apply (add_files_found _ _ _ _ _ Hc Hmain)|].
  split; [exact Hch|]. split; [apply files_rewritten|]. split.
  - rewrite stdout_rewritten. unfold report.
    rewrite Hch, !run_jobs_length. unfold run_jobs at 1.
    rewrite (children_lines_none _ _ _ _ Hnone). reflexivity.
  - intros Href. rewrite <- section_block_refs.
    unfold after_file_refs. rewrite Hch.
    apply section_step_found. exact Href.
Qed.

(** X4. A section header that is not found is passed over without a
    word.  When the main group is found and neither the PBXFileReference
    nor the PBXBuildFile header is in the text after the first loop, the
    run returns [True], the two steps change nothing, and the lines
    printed are those of the first loop and the line of the Sources
    build phase alone: no line tells that the declarations were left
    out. *)
Theorem missing_headers_are_skipped_silently (path : text)
    (fs : list file_to_add) (d : list (text * text)) (w : world) (c : text) :
  files w path = Some c ->
  plain_files fs = true ->
  found main_sources_pattern c = true ->
  found file_ref_section_pattern (after_children (run_jobs w fs) c) = false ->
  found build_file_section_pattern (after_children (run_jobs w fs) c) = false ->
  exists w',
    add_files_to_xcode_project path fs d w = (Ret true, w') /\
    after_build_files (run_jobs w fs) c = after_children (run_jobs w fs) c /\
    files w' path
    = Some (sources_step (map sources_of (run_jobs w fs))
              (after_children (run_jobs w fs) c)) /\
    stdout w' =
    stdout w ++ children_lines (run_jobs w fs) c
    ++ [sources_line (length fs) (after_children (run_jobs w fs) c)].
Proof.
  intros Hc _ Hmain Href Hbuild.
  assert (H1 : after_file_refs (run_jobs w fs) c
               = after_children (run_jobs w fs) c).
  { unfold after_file_refs. apply section_step_missing. exact Href. }
  assert (H2 : after_build_files (run_jobs w fs) c
               = after_children (run_jobs w fs) c).
  { unfold after_build_files. rewrite H1.
    apply section_step_missing. exact Hbuild. }
  eexists. split; [apply (add_files_found _ _ _ _ _ Hc Hmain)|].
  split; [exact H2|]. split.
  - rewrite files_rewritten. unfold after_sources. rewrite H2. reflexivity.
  - rewrite stdout_rewritten. unfold report, section_line.
    rewrite H2, H1. rewrite (found_false _ _ Href), (found_false _ _ Hbuild).
    rewrite run_jobs_length. reflexivity.
Qed.

(* ------------------------------------------------------------------ *)
(** ** main, when the four groups are there *)

Section MainRuns.

Implicit Types (w : world) (c : text).

Lemma found_group_truthy c name :
  find_group_uuid c name <> None -> truthy (find_group_uuid c name) = true.
Proof.
  destruct (find_group_uuid c name) as [u|] eqn:H; [|congruence].
  intros _. apply find_group_uuid_format in H as [Hl _].
  destruct u; [discriminate | reflexivity].
Qed.

Lemma all_groups_truthy c :
  (forall name, In name required_groups -> find_group_uuid c name <> None) ->
  forallb truthy
    [find_group_uuid c (T "Services"); find_group_uuid c (T "Views");
     find_group_uuid c (T "Components"); find_group_uuid c (T "Models")]
  = true.
Proof.
  intros H. cbn [forallb].
  rewrite !found_group_truthy; [reflexivity | | | |];
    apply H; unfold required_groups; cbn [In]; auto.
Qed.

Lemma the_str_plain c name : plain_id (the_str (find_group_uuid c name)) = true.
Proof.
  destruct (find_group_uuid c name) as [u|] eqn:H; [|reflexivity].
  apply (find_group_uuid_plain _ _ _ H).
Qed.

Lemma main_files_plain c : plain_files (main_files c) = true.
Proof.
  unfold plain_files, main_files, group_uuid_of. cbn [forallb snd].
  rewrite !the_str_plain. reflexivity.
Qed.

(** [main] up to the call of the editor. *)
Lemma main_calls_editor w c :
  files w project_file = Some c ->
  (forall name, In name required_groups -> find_group_uuid c name <> None) ->
  main w =
  bind (add_files_to_xcode_project project_file (main_files c) [])
       (fun ok : bool =>
          if ok then
            bind (print (LF ++ T "✅ Successfully added all files to Xcode project!"))
              (fun _ =>
                 bind (print (LF ++ T "NOTE: The Core Data model (PetSafety.xcdatamodeld) needs to be added manually"))
                   (fun _ => print (T "      or you can open Xcode and use File > Add Files to add it.")))
          else print (LF ++ T "❌ Failed to add files to project"))
       (printed w (listing c ++ [T "Adding files to Xcode project..."])).
Proof.
  intros Hc Hall. apply all_groups_truthy in Hall.
  unfold main. unfold bind at 1. unfold read_text. rewrite Hc.
  cbv zeta. rewrite Hall. cbv beta iota delta [negb].
  unfold main_files, printed, listing.
  cbn [app map]. unfold bind at 1 2 3 4 5 6 7. unfold print at 1 2 3 4 5 6 7.
  cbv beta iota. cbn [files entropy drawn events].
  rewrite <- !app_assoc. reflexivity.
Qed.

End MainRuns.

(** X5. When each of the four names has an identifier in the manifest
    and the main group pattern matches, [main] calls the editor with its
    four files, whose group identifiers are the ones found for Services
    (three files) and Components (one file); eight identifiers are
    drawn, the manifest is written once, with the text the four steps
    made, and the lines printed are the listing, the notice, the report
    of the editor and the three closing lines. *)
Theorem main_adds_the_four_files (w : world) (c : text) :
  files w project_file = Some c ->
  (forall name, In name required_groups -> find_group_uuid c name <> None) ->
  found main_sources_pattern c = true ->
  exists w',
    main w = (Ret tt, w') /\
    plain_files (main_files c) = true /\
    map group_uuid_of (main_files c)
    = [the_str (find_group_uuid c (T "Services"));
       the_str (find_group_uuid c (T "Services"));
       the_str (find_group_uuid c (T "Services"));
       the_str (find_group_uuid c (T "Components"))] /\
    drawn w' = drawn w + 8 /\
    writes w'
    = writes w
      ++ [(project_file, after_sources (run_jobs w (main_files c)) c)] /\
    files w' project_file
    = Some (after_sources (run_jobs w (main_files c)) c) /\
    stdout w' =
    stdout w ++ listing c ++ [T "Adding files to Xcode project..."]
    ++ report (run_jobs w (main_files c)) c ++ success_lines.
Proof.
  intros Hc Hall Hmain.
  set (w1 := printed w (listing c ++ [T "Adding files to Xcode project..."])).
  set (out := after_sources (run_jobs w (main_files c)) c).
  set (w2 := rewritten w1 project_file out
               (report (run_jobs w (main_files c)) c) 8).
  exists (printed w2 success_lines).
  split.
  - rewrite (main_calls_editor _ _ Hc Hall). fold w1.
    unfold bind at 1.
    rewrite (add_files_found project_file (main_files c) [] w1 c Hc Hmain).
    unfold bind, print, printed, success_lines.
    cbn [files entropy drawn events map app].
    rewrite <- !app_assoc. reflexivity.
  - split; [apply main_files_plain|]. split; [reflexivity|].
    split; [reflexivity|].
    split; [rewrite writes_printed; unfold w2;
            rewrite writes_rewritten; unfold w1;
            rewrite writes_printed; reflexivity|].
    split; [apply files_rewritten|].
    rewrite stdout_printed. unfold w2. rewrite stdout_rewritten. unfold w1.
    rewrite stdout_printed, <- !app_assoc. reflexivity.
Qed.

(** X6. When each of the four names has an identifier in the manifest
    but the main group pattern does not match, [main] prints the listing
    and the notice, the editor prints its error and returns [False], and
    [main] ends with the failure line: no identifier is drawn, nothing
    is written and the file system is as before. *)
Theorem main_reports_failed_edit (w : world) (c : text) :
  files w project_file = Some c ->
  (forall name, In name required_groups -> find_group_uuid c name <> None) ->
  found main_sources_pattern c = false ->
  exists w',
    main w = (Ret tt, w') /\
    stdout w' =
    stdout w ++ listing c
    ++ [T "Adding files to Xcode project...";
        T "ERROR: Could not find main PetSafety group";
        failure_line] /\
    drawn w' = drawn w /\
    writes w' = writes w /\
    files w' = files w.
Proof.
  intros Hc Hall Hmain.
  exists (printed w (listing c
                     ++ [T "Adding files to Xcode project...";
                         T "ERROR: Could not find main PetSafety group";
                         failure_line])).
  split.
  - rewrite (main_calls_editor _ _ Hc Hall). unfold bind at 1.
    rewrite (add_files_not_found project_file (main_files c) []
               (printed w (listing c ++ [T "Adding files to Xcode project..."]))
               c Hc Hmain).
    unfold print, printed, failure_line.
    cbn [files entropy drawn events map app].
    rewrite !map_app. cbn [map]. rewrite <- !app_assoc. reflexivity.
  - split; [apply stdout_printed|]. split; [reflexivity|].
    split; [apply writes_printed | reflexivity].
Qed.

(* ------------------------------------------------------------------ *)
(** ** What the first loop keeps and where it writes *)

Section ChildrenEdits.

Implicit Types (c s : text) (w : world).






(** A match of the group pattern, in full. *)
Lemma group_match_full_shape group_uuid c m :
  search (group_pattern group_uuid) c = Some m ->
  exists pre name mid kids gap rest,
    c = pre ++ group_uuid ++ T " /* " ++ name ++ T " */ = {" ++ mid
        ++ T "children = (" ++ kids ++ T ");" ++ gap
        ++ T "isa = PBXGroup;" ++ rest /\
    group_span m 2 =
    (length (pre ++ group_uuid ++ T " /* " ++ name ++ T " */ = {" ++ mid
             ++ T "children = ("),
     length (pre ++ group_uuid ++ T " /* " ++ name ++ T " */ = {" ++ mid
             ++ T "children = (") + length kids).
Proof.
  intros H. apply search_sound in H as (pre & t & rest & g & -> & D & ->).
  unfold group_pattern in D. invert_derives.
  match goal with
  | |- context [pre ++ (((?a ++ ?b ++ ?x ++ ?d ++ ?y ++ ?o ++ []) ++
                         ?kids ++ (?cl ++ ?z ++ ?isa ++ []) ++ []) ++ rest)] =>
      exists pre, x, y, kids, z, rest
  end.
  split.
  - rewrite !app_nil_r, <- !app_assoc. reflexivity.
  - unfold group_span. cbn [m_groups app capture Nat.eqb].
    rewrite !app_nil_r. f_equal; rewrite !length_app; lia.
Qed.

End ChildrenEdits.


(** X8. Where a child entry goes.  When the pattern of a file's group
    identifier matches the text, the turn of that file puts its entry,
    made with the first identifier drawn, right before the [);] of a
    [children = (] list; that list stands after a mention of the group
    identifier followed by the start of a comment and, further on, a
    [*/ = {]; an [isa = PBXGroup;] stands somewhere after the [);].
    Nothing else of the text changes. *)
Theorem child_entry_goes_before_closing (f : file_to_add) (l : locals)
    (w : world) :
  plain_id (group_uuid_of f) = true ->
  found (group_pattern (group_uuid_of f)) (content l) = true ->
  exists l' w' pre name mid kids gap rest,
    for_files [f] l w = (Ret l', w') /\
    content l
    = pre ++ group_uuid_of f ++ T " /* " ++ name ++ T " */ = {" ++ mid
      ++ T "children = (" ++ kids ++ T ");" ++ gap
      ++ T "isa = PBXGroup;" ++ rest /\
    content l'
    = pre ++ group_uuid_of f ++ T " /* " ++ name ++ T " */ = {" ++ mid
      ++ T "children = (" ++ kids
      ++ new_child_entry (drawn_uuid (entropy w) (drawn w)) (filename_of f)
      ++ T ");" ++ gap ++ T "isa = PBXGroup;" ++ rest.
Proof.
  intros _ Hf. apply found_true in Hf as [m Hm].
  destruct (group_match_full_shape _ _ _ Hm)
    as (pre & name & mid & kids & gap & rest & Hc & Hsp).
  exists (Locals
            (add_child (content l)
               (f, (drawn_uuid (entropy w) (drawn w),
                    drawn_uuid (entropy w) (S (drawn w)))))
            (file_references l
             ++ [file_reference_of
                   (f, (drawn_uuid (entropy w) (drawn w),
                        drawn_uuid (entropy w) (S (drawn w))))])
            (build_file_entries l
             ++ [build_file_of
                   (f, (drawn_uuid (entropy w) (drawn w),
                        drawn_uuid (entropy w) (S (drawn w))))])
            (sources_build_phase_entries l
             ++ [sources_of
                   (f, (drawn_uuid (entropy w) (drawn w),
                        drawn_uuid (entropy w) (S (drawn w))))])).
  eexists. exists pre, name, mid, kids, gap, rest.
  split; [rewrite for_files_cons; reflexivity|].
  split; [exact Hc|].
  cbn [content]. unfold add_child. cbn [fst snd]. rewrite Hm.
  unfold group, file_ref_uuid_of. rewrite Hsp. cbn [fst snd]. rewrite Hc.
  set (open := group_uuid_of f ++ T " /* " ++ name ++ T " */ = {" ++ mid
               ++ T "children = (").
  replace (pre ++ group_uuid_of f ++ T " /* " ++ name ++ T " */ = {" ++ mid
           ++ T "children = (" ++ kids ++ T ");" ++ gap
           ++ T "isa = PBXGroup;" ++ rest)
    with ((pre ++ open) ++ kids ++ T ");" ++ gap ++ T "isa = PBXGroup;" ++ rest)
    by (unfold open; rewrite <- !app_assoc; reflexivity).
  rewrite slice_edit_app. unfold open. rewrite <- !app_assoc. reflexivity.
Qed.

(* ------------------------------------------------------------------ *)
(** ** What an identifier is made of *)

Section UuidBits.

Local Open Scope Z_scope.

Lemma hex_digits_lookup (k : nat) : forall (n : Z) (i : nat),
  (i < k)%nat ->
  hex_digits k n !! i
  = Some (hex_char ((n / 16 ^ Z.of_nat (k - 1 - i)) mod 16)).
Proof.
  induction k as [|k IH]; intros n i Hi; [lia|].
  cbn [hex_digits].
  destruct (decide (i < k)%nat) as [Hlt|Hge].
  - rewrite (lookup_app_l (A:=ascii)); [|rewrite hex_digits_length; lia].
    rewrite IH by lia. do 2 f_equal.
    rewrite Z.div_div by lia. do 2 f_equal.
    replace (S k - 1 - i)%nat with (S (k - 1 - i)) by lia.
    rewrite Nat2Z.inj_succ, Z.pow_succ_r by lia. reflexivity.
  - assert (i = k) by lia. subst i.
    rewrite (lookup_app_r (A:=ascii)); [|rewrite hex_digits_length; lia].
    rewrite hex_digits_length, Nat.sub_diag.
    replace (S k - 1 - k)%nat with 0%nat by lia.
    simpl. rewrite Z.div_1_r. reflexivity.
Qed.

Lemma take_hex_digits (k j : nat) : forall n : Z,
  take k (hex_digits (k + j) n) = hex_digits k (n / 16 ^ Z.of_nat j).
Proof.
  induction j as [|j IH]; intros n.
  - rewrite Nat.add_0_r. simpl. rewrite Z.div_1_r.
    apply take_ge. rewrite hex_digits_length. lia.
  - rewrite Nat.add_succ_r. cbn [hex_digits].
    rewrite take_app_le by (rewrite hex_digits_length; lia).
    rewrite IH, Z.div_div by lia.
    rewrite Nat2Z.inj_succ, Z.pow_succ_r by lia. reflexivity.
Qed.

(** A bit of the number of a UUID, from the bit of the random number. *)
Lemma uuid4_int_bit (random m : Z) :
  0 <= m ->
  Z.testbit (uuid4_int random) m =
  ((Z.testbit (random mod 2 ^ 128) m
    && negb (Z.testbit (Z.shiftl 0xc000 48) m)
    || Z.testbit (Z.shiftl 0x8000 48) m)
   && negb (Z.testbit (Z.shiftl 0xf000 64) m)
   || Z.testbit (Z.shiftl 4 76) m)%bool.
Proof.
  intros Hm. unfold uuid4_int.
  rewrite Z.lor_spec, Z.land_spec, Z.lor_spec, Z.land_spec.
  rewrite !Z.lnot_spec by exact Hm. reflexivity.
Qed.

(** The version digit: bits 76 to 79 read 4. *)
Lemma uuid4_int_version (random : Z) :
  (uuid4_int random / 16 ^ 19) mod 16 = 4.
Proof.
  change (16 ^ 19) with (2 ^ 76). change 16 with (2 ^ 4).
  apply Z.bits_inj'. intros m Hm.
  destruct (Z_lt_le_dec m 4) as [Hlt|Hge].
  - rewrite Z.mod_pow2_bits_low by lia.
    rewrite Z.div_pow2_bits by lia. rewrite uuid4_int_bit by lia.
    assert (Hcases : m = 0 \/ m = 1 \/ m = 2 \/ m = 3) by lia.
    destruct Hcases as [-> | [-> | [-> | ->]]];
      cbn [Z.add Pos.add Pos.succ];
      match goal with
      | |- context [Z.testbit (Z.shiftl 61440 64) ?p] =>
          replace (Z.testbit (Z.shiftl 61440 64) p) with true
            by (vm_compute; reflexivity)
      end;
      rewrite andb_false_r; vm_compute; reflexivity.
  - rewrite Z.mod_pow2_bits_high by lia. symmetry.
    apply Z.bits_above_log2; [lia|]. simpl. lia.
Qed.

(** The variant digit: bits 62 and 63 read 10, so the digit is 8, 9, a
    or b. *)
Lemma uuid4_int_variant (random : Z) :
  8 <= (uuid4_int random / 16 ^ 15) mod 16 < 12.
Proof.
  change (16 ^ 15) with (2 ^ 60). change 16 with (2 ^ 4).
  set (v := (uuid4_int random / 2 ^ 60) mod 2 ^ 4).
  assert (Hbit : forall m, 0 <= m < 4 ->
            Z.testbit v m = Z.testbit (uuid4_int random) (m + 60)).
  { intros m Hm. unfold v. rewrite Z.mod_pow2_bits_low by lia.
    apply Z.div_pow2_bits; lia. }
  assert (H3 : Z.testbit v 3 = true).
  { rewrite Hbit by lia. rewrite uuid4_int_bit by lia.
    replace (Z.testbit (Z.shiftl 32768 48) (3 + 60)) with true
      by (vm_compute; reflexivity).
    rewrite orb_true_r. vm_compute. reflexivity. }
  assert (H2 : Z.testbit v 2 = false).
  { rewrite Hbit by lia. rewrite uuid4_int_bit by lia.
    replace (Z.testbit (Z.shiftl 49152 48) (2 + 60)) with true
      by (vm_compute; reflexivity).
    rewrite andb_false_r. vm_compute. reflexivity. }
  assert (Hv : 0 <= v < 16) by (apply Z.mod_pos_bound; reflexivity).
  assert (Hcases : v = 0 \/ v = 1 \/ v = 2 \/ v = 3 \/ v = 4 \/ v = 5 \/ v = 6
                   \/ v = 7 \/ v = 8 \/ v = 9 \/ v = 10 \/ v = 11 \/ v = 12
                   \/ v = 13 \/ v = 14 \/ v = 15) by lia.
  clearbody v.
  repeat (destruct Hcases as [-> | Hcases];
          [first [lia | discriminate H3 | discriminate H2]|]).
  subst v. first [lia | discriminate H3 | discriminate H2].
Qed.

(** The number of a UUID from bit 32 on depends on the random number
    from bit 32 on only. *)
Lemma uuid4_int_high (r r' : Z) :
  (r mod 2 ^ 128) / 2 ^ 32 = (r' mod 2 ^ 128) / 2 ^ 32 ->
  uuid4_int r / 2 ^ 32 = uuid4_int r' / 2 ^ 32.
Proof.
  intros H. apply Z.bits_inj'. intros m Hm.
  rewrite !Z.div_pow2_bits by lia. rewrite !uuid4_int_bit by lia.
  rewrite <- !(Z.div_pow2_bits _ 32 m) by lia. rewrite H. reflexivity.
Qed.

End UuidBits.

Lemma upper_take_lookup (n i : nat) (s : text) :
  i < n -> upper (take n s) !! i = option_map upper_char (s !! i).
Proof.
  revert n i; induction s as [|a s IH]; intros n i Hi.
  - rewrite take_nil. reflexivity.
  - destruct n as [|n]; [lia|]. destruct i as [|i]; [reflexivity|].
    simpl. apply IH. lia.
Qed.

(** X9. In every identifier [generate_uuid] returns the 13th character
    is [4] (the version of the UUID) and the 17th is [8], [9], [A] or
    [B] (its variant): of the 24 characters, 22 and a half are drawn at
    random. *)
Theorem generate_uuid_version_and_variant (w : world) :
  exists u w',
    generate_uuid w = (Ret u, w') /\
    u !! 12 = Some "4"%char /\
    exists v, u !! 16 = Some v /\ In v ["8"; "9"; "A"; "B"]%char.
Proof.
  rewrite generate_uuid_run. eexists _, _. split; [reflexivity|].
  unfold drawn_uuid, hex.
  rewrite !upper_take_lookup by lia.
  rewrite !hex_digits_lookup by lia. cbn [option_map].
  replace (Z.of_nat (32 - 1 - 12)) with 19%Z by reflexivity.
  replace (Z.of_nat (32 - 1 - 16)) with 15%Z by reflexivity.
  rewrite uuid4_int_version. split; [reflexivity|].
  pose proof (uuid4_int_variant (entropy w (drawn w))) as Hv.
  set (v := ((uuid4_int (entropy w (drawn w)) / 16 ^ 15) mod 16)%Z) in *.
  assert (Hcases : v = 8%Z \/ v = 9%Z \/ v = 10%Z \/ v = 11%Z) by lia.
  clearbody v. eexists. split; [reflexivity|].
  destruct Hcases as [-> | [-> | [-> | ->]]]; vm_compute; tauto.
Qed.

(** X10. The identifier does not depend on the low 32 bits of the
    random number: two calls whose random numbers agree from bit 32 on
    return the same identifier, so the same identifier can be drawn
    twice (nothing in the script checks for that). *)
Theorem generate_uuid_ignores_low_bits (w1 w2 : world) :
  ((entropy w1 (drawn w1) mod 2 ^ 128) / 2 ^ 32
   = (entropy w2 (drawn w2) mod 2 ^ 128) / 2 ^ 32)%Z ->
  (generate_uuid w1).1 = (generate_uuid w2).1.
Proof.
  intros H. rewrite !generate_uuid_run. cbn [fst]. f_equal.
  unfold drawn_uuid, hex. f_equal.
  change 32 with (24 + 8). rewrite !take_hex_digits.
  change (16 ^ Z.of_nat 8)%Z with (2 ^ 32)%Z.
  rewrite (uuid4_int_high _ _ H). reflexivity.
Qed.

Lemma generate_uuid_ignores_low_bits_witness :
  ((entropy Samples.w0 (drawn Samples.w0) mod 2 ^ 128) / 2 ^ 32
   = (entropy (MoreSamples.bumped Samples.w0)
        (drawn (MoreSamples.bumped Samples.w0)) mod 2 ^ 128) / 2 ^ 32)%Z /\
  entropy Samples.w0 0 <> entropy (MoreSamples.bumped Samples.w0) 0 /\
  (generate_uuid Samples.w0).1
  = (generate_uuid (MoreSamples.bumped Samples.w0)).1.
Proof.
  split; [vm_compute; reflexivity|].
  split; [vm_compute; discriminate|].
  apply (generate_uuid_ignores_low_bits Samples.w0
           (MoreSamples.bumped Samples.w0)).
  vm_compute. reflexivity.
Defined.

(* ------------------------------------------------------------------ *)
(** ** Further properties of find_group_uuid *)

Section FindMore.

Implicit Types (s c : text).

Lemma find_first_intro (test : text -> bool) s : forall i,
  test (drop i s) = true ->
  i <= length s ->
  (forall j, j < i -> test (drop j s) = false) ->
  find_first test s = Some i.
Proof.
  induction s as [|a s IH]; intros i Hi Hle Hfirst; simpl.
  - assert (i = 0) by (simpl in Hle; lia). subst i. simpl in Hi.
    rewrite Hi. reflexivity.
  - destruct i as [|i].
    + simpl in Hi. rewrite Hi. reflexivity.
    + assert (H0 : test (a :: s) = false) by (apply (Hfirst 0); lia).
      rewrite H0.
      rewrite (IH i); [reflexivity | exact Hi | simpl in Hle; lia |].
      intros j Hj. apply (Hfirst (S j)). lia.
Qed.

Lemma id_comment_here_iff group_name s :
  id_comment_here group_name s = true <->
  exists u rest,
    s = u ++ name_comment group_name ++ rest /\
    length u = 24 /\ forallb hex_upper u = true.
Proof.
  unfold id_comment_here. fold (name_comment group_name).
  rewrite !andb_true_iff, Nat.leb_le, starts_with_app. split.
  - intros [[Hl Hh] [rest Hr]]. exists (take 24 s), rest.
    rewrite <- Hr, take_drop, length_take. repeat split; [lia | exact Hh].
  - intros (u & rest & -> & Hl & Hh).
    rewrite (take_app_length' u _ 24) by (symmetry; exact Hl).
    rewrite (drop_app_length' u _ 24) by (symmetry; exact Hl).
    rewrite length_app. repeat split; [lia | exact Hh | eauto].
Qed.

Lemma id_comment_here_length group_name s :
  id_comment_here group_name s = true ->
  24 + length (name_comment group_name) <= length s.
Proof.
  intros H. apply id_comment_here_iff in H as (u & rest & -> & Hl & _).
  rewrite !length_app. lia.
Qed.

Lemma id_comment_here_app group_name s x :
  id_comment_here group_name s = true ->
  id_comment_here group_name (s ++ x) = true.
Proof.
  intros H. apply id_comment_here_iff in H as (u & rest & -> & Hl & Hh).
  apply id_comment_here_iff. exists u, (rest ++ x).
  rewrite <- !app_assoc. auto.
Qed.

Lemma id_comment_here_app_inv group_name s x :
  24 + length (name_comment group_name) <= length s ->
  id_comment_here group_name (s ++ x) = true ->
  id_comment_here group_name s = true.
Proof.
  intros Hlen H. apply id_comment_here_iff in H as (u & rest & Hs & Hl & Hh).
  apply id_comment_here_iff.
  exists u, (drop (24 + length (name_comment group_name)) s).
  split; [|auto].
  assert (Ht : take (24 + length (name_comment group_name)) (s ++ x)
               = u ++ name_comment group_name).
  { rewrite Hs, app_assoc. apply take_app_length'.
    rewrite length_app. lia. }
  rewrite take_app_le in Ht by exact Hlen.
  rewrite <- (take_drop (24 + length (name_comment group_name)) s) at 1.
  rewrite Ht, <- app_assoc. reflexivity.
Qed.

Lemma id_comment_here_head group_name (a : ascii) s :
  id_comment_here group_name (a :: s) = true -> hex_upper a = true.
Proof.
  intros H. apply id_comment_here_iff in H as (u & rest & Hs & Hl & Hh).
  destruct u as [|b u]; [discriminate|]. simpl in Hs. injection Hs as -> _.
  simpl in Hh. apply andb_true_iff in Hh as [Hb _]. exact Hb.
Qed.

End FindMore.

(** X11. A text too short to hold an identifier and the comment of the
    name, and the empty text in particular, has no group of that name:
    [find_group_uuid] returns [None] on every text of fewer than
    31 + len(name) characters. *)
Theorem find_group_uuid_short_text (content group_name : text) :
  length content < 31 + length group_name ->
  find_group_uuid content group_name = None.
Proof.
  intros Hlen. rewrite find_group_uuid_first.
  destruct (find_first (id_comment_here group_name) content) as [j|] eqn:F;
    [|reflexivity].
  apply find_first_some in F as (H & _ & _).
  apply id_comment_here_length in H.
  rewrite length_drop in H. unfold name_comment in H.
  rewrite !length_app in H. simpl in H. lia.
Qed.

Lemma find_group_uuid_short_text_witness :
  length (T "Services") < 31 + length (T "Services") /\
  find_group_uuid (T "Services") (T "Services") = None.
Proof.
  split; [vm_compute; lia|].
  apply (find_group_uuid_short_text (T "Services") (T "Services")).
  vm_compute. lia.
Defined.

(** X12. What is written can be looked up.  On a text that begins with
    characters outside [[A-F0-9]] (the tabs and line feeds the editor
    puts before an identifier), then an identifier of 24 characters of
    [[A-F0-9]] and the comment of a name, [find_group_uuid] returns that
    identifier for that name, whatever follows and whether the
    identifier is that of a group or of a file. *)
Theorem find_group_uuid_reads_back (pre u group_name rest : text) :
  forallb (fun a => negb (hex_upper a)) pre = true ->
  length u = 24 ->
  forallb hex_upper u = true ->
  find_group_uuid (pre ++ u ++ name_comment group_name ++ rest) group_name
  = Some u.
Proof.
  intros Hpre Hl Hh. rewrite find_group_uuid_first.
  assert (Hhit : id_comment_here group_name
                   (u ++ name_comment group_name ++ rest) = true).
  { apply id_comment_here_iff. eauto. }
  rewrite (find_first_intro _ _ (length pre)).
  - rewrite drop_app_length, (take_app_length' u _ 24) by (symmetry; exact Hl).
    reflexivity.
  - rewrite drop_app_length. exact Hhit.
  - rewrite length_app. lia.
  - intros j Hj. rewrite drop_app_le by lia.
    destruct (drop j pre) as [|a t] eqn:Hd.
    + apply (f_equal length) in Hd. rewrite length_drop in Hd. simpl in Hd. lia.
    + destruct (id_comment_here group_name ((a :: t) ++ _)) eqn:E;
        [|reflexivity].
      apply id_comment_here_head in E.
      assert (Ha : negb (hex_upper a) = true).
      { assert (Hall : forallb (fun a => negb (hex_upper a)) (drop j pre) = true).
        { rewrite <- (take_drop j pre), forallb_app in Hpre.
          apply andb_true_iff in Hpre as [_ Hp]. exact Hp. }
        rewrite Hd in Hall. simpl in Hall.
        apply andb_true_iff in Hall as [Ha _]. exact Ha. }
      rewrite E in Ha. discriminate.
Qed.

Lemma find_group_uuid_reads_back_witness :
  forallb (fun a => negb (hex_upper a)) (TAB ++ TAB) = true /\
  length Samples.first_ref_uuid = 24 /\
  forallb hex_upper Samples.first_ref_uuid = true /\
  find_group_uuid
    (file_ref_entry Samples.first_ref_uuid (T "NetworkMonitor.swift"))
    (T "NetworkMonitor.swift")
  = Some Samples.first_ref_uuid.
Proof.
  do 3 (split; [vm_compute; reflexivity|]).
  apply (find_group_uuid_reads_back (TAB ++ TAB) Samples.first_ref_uuid
           (T "NetworkMonitor.swift")
           (T " = {isa = PBXFileReference; lastKnownFileType = sourcecode.swift; path = "
            ++ T "NetworkMonitor.swift" ++ T "; sourceTree = " ++ DQUOTE
            ++ T "<group>" ++ DQUOTE ++ T "; };" ++ LF));
    vm_compute; reflexivity.
Defined.

(** X13. Text added at the end of a manifest does not change a lookup
    that succeeded: the first place where the identifier and the comment
    stand is still the first. *)
Theorem find_group_uuid_stable_under_append (content extra group_name u : text) :
  find_group_uuid content group_name = Some u ->
  find_group_uuid (content ++ extra) group_name = Some u.
Proof.
  rewrite !find_group_uuid_first.
  destruct (find_first (id_comment_here group_name) content) as [i|] eqn:F;
    [|discriminate].
  intros [= <-]. apply find_first_some in F as (Hi & Hle & Hfirst).
  pose proof (id_comment_here_length _ _ Hi) as Hlen.
  rewrite length_drop in Hlen.
  rewrite (find_first_intro _ _ i).
  - rewrite drop_app_le by lia.
    rewrite take_app_le by (rewrite length_drop; lia). reflexivity.
  - rewrite drop_app_le by lia. apply id_comment_here_app. exact Hi.
  - rewrite length_app. lia.
  - intros j Hj. rewrite drop_app_le by lia.
    destruct (id_comment_here group_name (drop j content ++ extra)) eqn:E;
      [|reflexivity].
    apply id_comment_here_app_inv in E; [|rewrite length_drop; lia].
    rewrite (Hfirst j Hj) in E. discriminate.
Qed.

Lemma find_group_uuid_stable_under_append_witness :
  find_group_uuid Samples.c0 (T "Services") = Some Samples.services_uuid /\
  find_group_uuid (Samples.c0 ++ Samples.empty_project) (T "Services")
  = Some Samples.services_uuid.
Proof.
  split; [vm_compute; reflexivity|].
  apply (find_group_uuid_stable_under_append Samples.c0 Samples.empty_project
           (T "Services") Samples.services_uuid).
  vm_compute. reflexivity.
Defined.

(** X14. The loops that put the declarations in keep the order of the
    list: with the running [insert_pos], the text they make is the text
    with all the declarations, each after a line feed and in the order
    of the list, put in at the first position; the text before that
    position and the text after it are not touched. *)
Theorem insert_loop_keeps_order (entries : list (text * text * text))
    (content : text) (insert_pos : nat) :
  for_entries entries content insert_pos
  = take insert_pos content
    ++ concat (map (fun e => LF ++ e.2) entries)
    ++ drop insert_pos content.
Proof. apply for_entries_splice. Qed.

(* ------------------------------------------------------------------ *)
(** ** More instances *)

Lemma empty_list_rewrites_same_text_witness :
  files Samples.w0 project_file = Some Samples.c0 /\
  found main_sources_pattern Samples.c0 = true /\
  exists w',
    add_files_to_xcode_project project_file [] [] Samples.w0 = (Ret true, w') /\
    files w' project_file = Some Samples.c0 /\
    writes w' = [(project_file, Samples.c0)] /\
    stdout w' =
    [T "✓ Added 0 file references";
     T "✓ Added 0 build file entries";
     T "✓ Added 0 files to Sources build phase"].
Proof.
  do 2 (split; [vm_compute; reflexivity|]).
  unshelve epose proof
    (empty_list_rewrites_same_text project_file [] Samples.w0 Samples.c0 _ _)
    as (w' & Hrun & Hf & Hw & _ & Hout); [vm_compute; reflexivity ..|].
  exists w'. split; [exact Hrun|]. split; [exact Hf|]. split; [exact Hw|].
  rewrite Hout. vm_compute. reflexivity.
Defined.

Lemma files_without_group_are_still_declared_witness :
  files Samples.w0 project_file = Some Samples.c0 /\
  plain_files [MoreSamples.stray_file] = true /\
  found main_sources_pattern Samples.c0 = true /\
  no_group_found [MoreSamples.stray_file] Samples.c0 = true /\
  exists w',
    add_files_to_xcode_project project_file [MoreSamples.stray_file] []
      Samples.w0 = (Ret true, w') /\
    stdout w' =
    [T "✗ Could not find group FFFFFFFFFFFFFFFFFFFFFFFF for Stray.swift";
     T "✓ Added 1 file references";
     T "✓ Added 1 build file entries";
     T "✓ Added 1 files to Sources build phase"].
Proof.
  do 4 (split; [vm_compute; reflexivity|]).
  unshelve epose proof
    (files_without_group_are_still_declared project_file
       [MoreSamples.stray_file] [] Samples.w0 Samples.c0 _ _ _ _)
    as (w' & Hrun & _ & _ & Hout & _); [vm_compute; reflexivity ..|].
  exists w'. split; [exact Hrun|]. rewrite Hout. vm_compute. reflexivity.
Defined.

Lemma missing_headers_are_skipped_silently_witness :
  files (Samples.world_with project_file Samples.empty_project) project_file
  = Some Samples.empty_project /\
  plain_files Samples.one_file = true /\
  found main_sources_pattern Samples.empty_project = true /\
  found file_ref_section_pattern
    (after_children
       (run_jobs (Samples.world_with project_file Samples.empty_project)
                 Samples.one_file)
       Samples.empty_project) = false /\
  found build_file_section_pattern
    (after_children
       (run_jobs (Samples.world_with project_file Samples.empty_project)
                 Samples.one_file)
       Samples.empty_project) = false /\
  exists w',
    add_files_to_xcode_project project_file Samples.one_file []
      (Samples.world_with project_file Samples.empty_project)
    = (Ret true, w') /\
    stdout w' =
    [T "✓ Added NetworkMonitor.swift to group";
     T "✗ Could not find Sources build phase"].
Proof.
  do 5 (split; [vm_compute; reflexivity|]).
  unshelve epose proof
    (missing_headers_are_skipped_silently project_file Samples.one_file []
       (Samples.world_with project_file Samples.empty_project)
       Samples.empty_project _ _ _ _ _)
    as (w' & Hrun & _ & _ & Hout); [vm_compute; reflexivity ..|].
  exists w'. split; [exact Hrun|]. rewrite Hout. vm_compute. reflexivity.
Defined.

Lemma main_adds_the_four_files_witness :
  files Samples.w0 project_file = Some Samples.c0 /\
  (forall name, In name required_groups ->
     find_group_uuid Samples.c0 name <> None) /\
  found main_sources_pattern Samples.c0 = true /\
  exists w',
    main Samples.w0 = (Ret tt, w') /\
    drawn w' = 8 /\
    map group_uuid_of (main_files Samples.c0)
    = [Samples.services_uuid; Samples.services_uuid; Samples.services_uuid;
       Samples.components_uuid].
Proof.
  split; [vm_compute; reflexivity|].
  assert (H : forall name, In name required_groups ->
                find_group_uuid Samples.c0 name <> None).
  { intros name Hin. unfold required_groups in Hin. cbn [In] in Hin.
    destruct Hin as [<-|[<-|[<-|[<-|[]]]]]; vm_compute; discriminate. }
  split; [exact H|]. split; [vm_compute; reflexivity|].
  unshelve epose proof
    (main_adds_the_four_files Samples.w0 Samples.c0 _ H _)
    as (w' & Hrun & _ & _ & Hd & _); [vm_compute; reflexivity ..|].
  exists w'. split; [exact Hrun|]. split; [exact Hd|].
  vm_compute. reflexivity.
Defined.

Lemma main_reports_failed_edit_witness :
  files (Samples.world_with project_file MoreSamples.no_main_group)
        project_file
  = Some MoreSamples.no_main_group /\
  (forall name, In name required_groups ->
     find_group_uuid MoreSamples.no_main_group name <> None) /\
  found main_sources_pattern MoreSamples.no_main_group = false /\
  exists w',
    main (Samples.world_with project_file MoreSamples.no_main_group)
    = (Ret tt, w') /\
    writes w' = [] /\
    drawn w' = 0.
Proof.
  split; [vm_compute; reflexivity|].
  assert (H : forall name, In name required_groups ->
                find_group_uuid MoreSamples.no_main_group name <> None).
  { intros name Hin. unfold required_groups in Hin. cbn [In] in Hin.
    destruct Hin as [<-|[<-|[<-|[<-|[]]]]]; vm_compute; discriminate. }
  split; [exact H|]. split; [vm_compute; reflexivity|].
  unshelve epose proof
    (main_reports_failed_edit
       (Samples.world_with project_file MoreSamples.no_main_group)
       MoreSamples.no_main_group _ H _)
    as (w' & Hrun & _ & Hd & Hw & _); [vm_compute; reflexivity ..|].
  exists w'. split; [exact Hrun|]. split; [exact Hw | exact Hd].
Defined.

Lemma child_entry_goes_before_closing_witness :
  plain_id (group_uuid_of Samples.network_monitor) = true /\
  found (group_pattern (group_uuid_of Samples.network_monitor))
        (content (Locals Samples.c0 [] [] [])) = true /\
  exists l' w' pre name mid kids gap rest,
    for_files [Samples.network_monitor] (Locals Samples.c0 [] [] [])
      Samples.w0 = (Ret l', w') /\
    content l'
    = pre ++ group_uuid_of Samples.network_monitor ++ T " /* " ++ name
      ++ T " */ = {" ++ mid ++ T "children = (" ++ kids
      ++ new_child_entry (drawn_uuid (entropy Samples.w0) (drawn Samples.w0))
           (filename_of Samples.network_monitor)
      ++ T ");" ++ gap ++ T "isa = PBXGroup;" ++ rest.
Proof.
  do 2 (split; [vm_compute; reflexivity|]).
  unshelve epose proof
    (child_entry_goes_before_closing Samples.network_monitor
       (Locals Samples.c0 [] [] []) Samples.w0 _ _)
    as (l' & w' & pre & name & mid & kids & gap & rest & Hrun & _ & Hout);
    [vm_compute; reflexivity ..|].
  exists l', w', pre, name, mid, kids, gap, rest. split; assumption.
Defined.

(* ------------------------------------------------------------------ *)
(** ** Steps on their own, and the size of what goes in *)

Section Sizes.

Lemma children_inserted_length js : forall c c',
  children_inserted js c c' ->
  length c' = length c + length (child_entries_block js).
Proof.
  induction js as [|j js IH]; intros c c' H; inversion H; subst.
  - unfold child_entries_block. simpl. lia.
  - match goal with Hc : children_inserted js _ c' |- _ =>
      apply IH in Hc; rewrite Hc end.
    unfold child_entries_block. cbn [map concat].
    rewrite !length_app. lia.
Qed.

Lemma inserted_after_size header t c c' :
  inserted_after header t c c' -> length c' = length c + length t.
Proof.
  intros (pre & rest & -> & _ & ->). rewrite !length_app. lia.
Qed.

End Sizes.

(** X15. Each section step stands on its own.  When the main group is
    found and the PBXFileReference header is not in the text after the
    first loop while the PBXBuildFile header is, the run returns [True],
    no file reference is declared and no line says so, and the
    build-file declarations still go in after their header: each names,
    in its [fileRef] field, the identifier of a file reference that this
    run declares nowhere. *)
Theorem build_files_go_in_without_file_references (path : text)
    (fs : list file_to_add) (d : list (text * text)) (w : world) (c : text) :
  files w path = Some c ->
  plain_files fs = true ->
  found main_sources_pattern c = true ->
  found file_ref_section_pattern (after_children (run_jobs w fs) c) = false ->
  found build_file_section_pattern (after_children (run_jobs w fs) c) = true ->
  exists w',
    add_files_to_xcode_project path fs d w = (Ret true, w') /\
    after_file_refs (run_jobs w fs) c = after_children (run_jobs w fs) c /\
    inserted_after (T "/* Begin PBXBuildFile section */")
      (build_files_block (run_jobs w fs))
      (after_children (run_jobs w fs) c)
      (after_build_files (run_jobs w fs) c) /\
    files w' path = Some (after_sources (run_jobs w fs) c) /\
    stdout w' =
    stdout w ++ children_lines (run_jobs w fs) c
    ++ [T "✓ Added " ++ str_nat (length fs) ++ T " build file entries";
        sources_line (length fs) (after_build_files (run_jobs w fs) c)].
Proof.
  intros Hc _ Hmain Href Hbuild.
  assert (H1 : after_file_refs (run_jobs w fs) c
               = after_children (run_jobs w fs) c).
  { unfold after_file_refs. apply section_step_missing. exact Href. }
  eexists. split; [apply (add_files_found _ _ _ _ _ Hc Hmain)|].
  split; [exact H1|]. split; [|split].
  - rewrite <- section_block_builds. unfold after_build_files. rewrite H1.
    apply section_step_found. exact Hbuild.
  - apply files_rewritten.
  - rewrite stdout_rewritten. unfold report, section_line.
    rewrite H1, (found_false _ _ Href).
    apply found_true in Hbuild as [m ->].
    rewrite run_jobs_length. reflexivity.
Qed.

(** X16. The size of what goes in.  When the main group, the group of
    every file and the three anchors are found when their steps run, the
    text written is longer than the text read by exactly the lengths of
    the child entries, of the file-reference declarations and of the
    build-file declarations (each with its line feed) and of the
    build-phase entries of the files: nothing else is added and, every
    edit being an insertion, nothing is taken away. *)
Theorem run_adds_exactly_its_entries (path : text)
    (fs : list file_to_add) (d : list (text * text)) (w : world) (c : text) :
  files w path = Some c ->
  plain_files fs = true ->
  found main_sources_pattern c = true ->
  groups_found (run_jobs w fs) c = true ->
  found file_ref_section_pattern (after_children (run_jobs w fs) c) = true ->
  found build_file_section_pattern (after_file_refs (run_jobs w fs) c) = true ->
  found sources_phase_pattern (after_build_files (run_jobs w fs) c) = true ->
  exists w' out,
    add_files_to_xcode_project path fs d w = (Ret true, w') /\
    files w' path = Some out /\
    length out
    = length c
      + length (child_entries_block (run_jobs w fs))
      + length (file_refs_block (run_jobs w fs))
      + length (build_files_block (run_jobs w fs))
      + length (sources_entries_block (run_jobs w fs)).
Proof.
  intros Hc _ Hmain Hg Href Hbuild Hsrc.
  destruct (steps_found _ _ Href Hbuild Hsrc) as (Hr & Hb & Hs).
  apply children_pass_found, children_inserted_length in Hg.
  apply inserted_after_size in Hr, Hb. apply inserted_in_files_length in Hs.
  eexists _, _. split; [apply (add_files_found _ _ _ _ _ Hc Hmain)|].
  split; [apply files_rewritten|].
  unfold after_children in *. lia.
Qed.

Lemma build_files_go_in_without_file_references_witness :
  files (Samples.world_with project_file MoreSamples.no_file_references)
        project_file
  = Some MoreSamples.no_file_references /\
  plain_files Samples.one_file = true /\
  found main_sources_pattern MoreSamples.no_file_references = true /\
  found file_ref_section_pattern
    (after_children
       (run_jobs (Samples.world_with project_file
                    MoreSamples.no_file_references) Samples.one_file)
       MoreSamples.no_file_references) = false /\
  found build_file_section_pattern
    (after_children
       (run_jobs (Samples.world_with project_file
                    MoreSamples.no_file_references) Samples.one_file)
       MoreSamples.no_file_references) = true /\
  exists w',
    add_files_to_xcode_project project_file Samples.one_file []
      (Samples.world_with project_file MoreSamples.no_file_references)
    = (Ret true, w') /\
    stdout w' =
    [T "✓ Added NetworkMonitor.swift to group";
     T "✓ Added 1 build file entries";
     T "✓ Added 1 files to Sources build phase"].
Proof.
  do 5 (split; [vm_compute; reflexivity|]).
  unshelve epose proof
    (build_files_go_in_without_file_references project_file Samples.one_file
       [] (Samples.world_with project_file MoreSamples.no_file_references)
       MoreSamples.no_file_references _ _ _ _ _)
    as (w' & Hrun & _ & _ & _ & Hout); [vm_compute; reflexivity ..|].
  exists w'. split; [exact Hrun|]. rewrite Hout. vm_compute. reflexivity.
Defined.

Lemma run_adds_exactly_its_entries_witness :
  files Samples.w0 project_file = Some Samples.c0 /\
  plain_files Samples.one_file = true /\
  found main_sources_pattern Samples.c0 = true /\
  groups_found (run_jobs Samples.w0 Samples.one_file) Samples.c0 = true /\
  found file_ref_section_pattern
    (after_children (run_jobs Samples.w0 Samples.one_file) Samples.c0) = true /\
  found build_file_section_pattern
    (after_file_refs (run_jobs Samples.w0 Samples.one_file) Samples.c0) = true /\
  found sources_phase_pattern
    (after_build_files (run_jobs Samples.w0 Samples.one_file) Samples.c0)
  = true /\
  exists w' out,
    add_files_to_xcode_project project_file Samples.one_file [] Samples.w0
    = (Ret true, w') /\
    files w' project_file = Some out /\
    length out = length Samples.c0 + 57 + 176 + 155 + 68.
Proof.
  do 7 (split; [vm_compute; reflexivity|]).
  unshelve epose proof
    (run_adds_exactly_its_entries project_file Samples.one_file []
       Samples.w0 Samples.c0 _ _ _ _ _ _ _)
    as (w' & out & Hrun & Hf & Hlen); [vm_compute; reflexivity ..|].
  exists w', out. split; [exact Hrun|]. split; [exact Hf|].
  rewrite Hlen. vm_compute. reflexivity.
Defined.
